(** * CVGeneratorBot: the candidate-data extraction pipeline of [models.py]

    A shallow embedding of [CVProcessor] (models.py), of the constants of
    [config.py] it is compared with, and of the defaulting layer
    [generate_profile_from_text] (app.py), together with the properties of
    the specification that were settled against them.

    Layout:
    - [Py]      the Python runtime pieces the code relies on: [str] as a
                sequence of Unicode code points, [str.lower], [str.strip],
                [in], [str.isdigit], and the character tables behind them;
    - [Re]      the fragment of [re] used by the source (a backtracking
                matcher with capture groups, [findall], [split], [sub]);
    - [Eff]     printing, exceptions and calls of the two transformer
                pipelines, as a writer/error monad;
    - [Config]  config.py;
    - [Models]  models.py;
    - [App]     app.py, [generate_profile_from_text];
    - [Spec]    the notions the specification is worded in;
    - [Fixtures] mocked pipelines and sample inputs;
    - [PyFacts], [ReFacts], [ModelsFacts], [AppFacts] the lemmas and the
                theorems, each theorem named after the property it
                settles. *)

From Stdlib Require Import String Ascii.
From Stdlib Require Import List NArith ZArith Bool Lia.
From Stdlib Require PrimFloat Uint63.
Import ListNotations.

(* ================================================================== *)
(** * The Python runtime *)
(* ================================================================== *)

Module Py.

Local Open Scope N_scope.

(** A Python [str] is a sequence of Unicode code points; [len] counts code
    points and slicing cuts between them. *)
Definition str := list N.

(** Source literals are written as in the .py files and decoded from the
    UTF-8 bytes of the Rocq string literal. *)
Fixpoint utf8_decode (bs : list N) : str :=
  match bs with
  | [] => []
  | b0 :: r0 =>
      if b0 <? 128 then b0 :: utf8_decode r0
      else
        match r0 with
        | [] => []
        | b1 :: r1 =>
            if b0 <? 224 then ((b0 - 192) * 64 + (b1 - 128)) :: utf8_decode r1
            else
              match r1 with
              | [] => []
              | b2 :: r2 =>
                  if b0 <? 240
                  then ((b0 - 224) * 4096 + (b1 - 128) * 64 + (b2 - 128))
                         :: utf8_decode r2
                  else
                    match r2 with
                    | [] => []
                    | b3 :: r3 =>
                        ((b0 - 240) * 262144 + (b1 - 128) * 4096
                         + (b2 - 128) * 64 + (b3 - 128)) :: utf8_decode r3
                    end
              end
        end
  end.

Definition u (s : string) : str :=
  utf8_decode (map N_of_ascii (list_ascii_of_string s)).

(** ** Character tables

    The tables are those of the Unicode Character Database 14.0.0 as built
    into CPython 3.11 ([Py_UNICODE_ISSPACE], [Py_UNICODE_ISDECIMAL],
    [Py_UNICODE_ISDIGIT], [_PyUnicode_ToLowerFull],
    [_PyUnicode_IsCaseIgnorable], [_PyUnicode_IsCased]), as closed ranges of
    code points. *)

Definition space_ranges : list (N * N) :=
  [
   (9,13); (28,32); (133,133); (160,160); (5760,5760); (8192,8202);
   (8232,8233); (8239,8239); (8287,8287); (12288,12288)
  ].

Definition decimal_ranges : list (N * N) :=
  [
   (48,57); (1632,1641); (1776,1785); (1984,1993); (2406,2415); (2534,2543);
   (2662,2671); (2790,2799); (2918,2927); (3046,3055); (3174,3183); (3302,3311);
   (3430,3439); (3558,3567); (3664,3673); (3792,3801); (3872,3881); (4160,4169);
   (4240,4249); (6112,6121); (6160,6169); (6470,6479); (6608,6617); (6784,6793);
   (6800,6809); (6992,7001); (7088,7097); (7232,7241); (7248,7257); (42528,42537);
   (43216,43225); (43264,43273); (43472,43481); (43504,43513); (43600,43609); (44016,44025);
   (65296,65305); (66720,66729); (68912,68921); (69734,69743); (69872,69881); (69942,69951);
   (70096,70105); (70384,70393); (70736,70745); (70864,70873); (71248,71257); (71360,71369);
   (71472,71481); (71904,71913); (72016,72025); (72784,72793); (73040,73049); (73120,73129);
   (92768,92777); (92864,92873); (93008,93017); (120782,120831); (123200,123209); (123632,123641);
   (125264,125273); (130032,130041)
  ].

Definition digit_ranges : list (N * N) :=
  [
   (48,57); (178,179); (185,185); (1632,1641); (1776,1785); (1984,1993);
   (2406,2415); (2534,2543); (2662,2671); (2790,2799); (2918,2927); (3046,3055);
   (3174,3183); (3302,3311); (3430,3439); (3558,3567); (3664,3673); (3792,3801);
   (3872,3881); (4160,4169); (4240,4249); (4969,4977); (6112,6121); (6160,6169);
   (6470,6479); (6608,6618); (6784,6793); (6800,6809); (6992,7001); (7088,7097);
   (7232,7241); (7248,7257); (8304,8304); (8308,8313); (8320,8329); (9312,9320);
   (9332,9340); (9352,9360); (9450,9450); (9461,9469); (9471,9471); (10102,10110);
   (10112,10120); (10122,10130); (42528,42537); (43216,43225); (43264,43273); (43472,43481);
   (43504,43513); (43600,43609); (44016,44025); (65296,65305); (66720,66729); (68160,68163);
   (68912,68921); (69216,69224); (69714,69722); (69734,69743); (69872,69881); (69942,69951);
   (70096,70105); (70384,70393); (70736,70745); (70864,70873); (71248,71257); (71360,71369);
   (71472,71481); (71904,71913); (72016,72025); (72784,72793); (73040,73049); (73120,73129);
   (92768,92777); (92864,92873); (93008,93017); (120782,120831); (123200,123209); (123632,123641);
   (125264,125273); (127232,127242); (130032,130041)
  ].

Definition lower_runs : list (N * N * N * Z) :=
  [
   (65,90,1,32%Z); (192,214,1,32%Z); (216,222,1,32%Z); (256,302,2,1%Z);
   (306,310,2,1%Z); (313,327,2,1%Z); (330,374,2,1%Z); (376,376,1,(-121)%Z);
   (377,381,2,1%Z); (385,385,1,210%Z); (386,388,2,1%Z); (390,390,1,206%Z);
   (391,391,1,1%Z); (393,394,1,205%Z); (395,395,1,1%Z); (398,398,1,79%Z);
   (399,399,1,202%Z); (400,400,1,203%Z); (401,401,1,1%Z); (403,403,1,205%Z);
   (404,404,1,207%Z); (406,406,1,211%Z); (407,407,1,209%Z); (408,408,1,1%Z);
   (412,412,1,211%Z); (413,413,1,213%Z); (415,415,1,214%Z); (416,420,2,1%Z);
   (422,422,1,218%Z); (423,423,1,1%Z); (425,425,1,218%Z); (428,428,1,1%Z);
   (430,430,1,218%Z); (431,431,1,1%Z); (433,434,1,217%Z); (435,437,2,1%Z);
   (439,439,1,219%Z); (440,440,1,1%Z); (444,444,1,1%Z); (452,452,1,2%Z);
   (453,453,1,1%Z); (455,455,1,2%Z); (456,456,1,1%Z); (458,458,1,2%Z);
   (459,475,2,1%Z); (478,494,2,1%Z); (497,497,1,2%Z); (498,500,2,1%Z);
   (502,502,1,(-97)%Z); (503,503,1,(-56)%Z); (504,542,2,1%Z); (544,544,1,(-130)%Z);
   (546,562,2,1%Z); (570,570,1,10795%Z); (571,571,1,1%Z); (573,573,1,(-163)%Z);
   (574,574,1,10792%Z); (577,577,1,1%Z); (579,579,1,(-195)%Z); (580,580,1,69%Z);
   (581,581,1,71%Z); (582,590,2,1%Z); (880,882,2,1%Z); (886,886,1,1%Z);
   (895,895,1,116%Z); (902,902,1,38%Z); (904,906,1,37%Z); (908,908,1,64%Z);
   (910,911,1,63%Z); (913,929,1,32%Z); (932,939,1,32%Z); (975,975,1,8%Z);
   (984,1006,2,1%Z); (1012,1012,1,(-60)%Z); (1015,1015,1,1%Z); (1017,1017,1,(-7)%Z);
   (1018,1018,1,1%Z); (1021,1023,1,(-130)%Z); (1024,1039,1,80%Z); (1040,1071,1,32%Z);
   (1120,1152,2,1%Z); (1162,1214,2,1%Z); (1216,1216,1,15%Z); (1217,1229,2,1%Z);
   (1232,1326,2,1%Z); (1329,1366,1,48%Z); (4256,4293,1,7264%Z); (4295,4295,1,7264%Z);
   (4301,4301,1,7264%Z); (5024,5103,1,38864%Z); (5104,5109,1,8%Z); (7312,7354,1,(-3008)%Z);
   (7357,7359,1,(-3008)%Z); (7680,7828,2,1%Z); (7838,7838,1,(-7615)%Z); (7840,7934,2,1%Z);
   (7944,7951,1,(-8)%Z); (7960,7965,1,(-8)%Z); (7976,7983,1,(-8)%Z); (7992,7999,1,(-8)%Z);
   (8008,8013,1,(-8)%Z); (8025,8031,2,(-8)%Z); (8040,8047,1,(-8)%Z); (8072,8079,1,(-8)%Z);
   (8088,8095,1,(-8)%Z); (8104,8111,1,(-8)%Z); (8120,8121,1,(-8)%Z); (8122,8123,1,(-74)%Z);
   (8124,8124,1,(-9)%Z); (8136,8139,1,(-86)%Z); (8140,8140,1,(-9)%Z); (8152,8153,1,(-8)%Z);
   (8154,8155,1,(-100)%Z); (8168,8169,1,(-8)%Z); (8170,8171,1,(-112)%Z); (8172,8172,1,(-7)%Z);
   (8184,8185,1,(-128)%Z); (8186,8187,1,(-126)%Z); (8188,8188,1,(-9)%Z); (8486,8486,1,(-7517)%Z);
   (8490,8490,1,(-8383)%Z); (8491,8491,1,(-8262)%Z); (8498,8498,1,28%Z); (8544,8559,1,16%Z);
   (8579,8579,1,1%Z); (9398,9423,1,26%Z); (11264,11311,1,48%Z); (11360,11360,1,1%Z);
   (11362,11362,1,(-10743)%Z); (11363,11363,1,(-3814)%Z); (11364,11364,1,(-10727)%Z); (11367,11371,2,1%Z);
   (11373,11373,1,(-10780)%Z); (11374,11374,1,(-10749)%Z); (11375,11375,1,(-10783)%Z); (11376,11376,1,(-10782)%Z);
   (11378,11378,1,1%Z); (11381,11381,1,1%Z); (11390,11391,1,(-10815)%Z); (11392,11490,2,1%Z);
   (11499,11501,2,1%Z); (11506,11506,1,1%Z); (42560,42604,2,1%Z); (42624,42650,2,1%Z);
   (42786,42798,2,1%Z); (42802,42862,2,1%Z); (42873,42875,2,1%Z); (42877,42877,1,(-35332)%Z);
   (42878,42886,2,1%Z); (42891,42891,1,1%Z); (42893,42893,1,(-42280)%Z); (42896,42898,2,1%Z);
   (42902,42920,2,1%Z); (42922,42922,1,(-42308)%Z); (42923,42923,1,(-42319)%Z); (42924,42924,1,(-42315)%Z);
   (42925,42925,1,(-42305)%Z); (42926,42926,1,(-42308)%Z); (42928,42928,1,(-42258)%Z); (42929,42929,1,(-42282)%Z);
   (42930,42930,1,(-42261)%Z); (42931,42931,1,928%Z); (42932,42946,2,1%Z); (42948,42948,1,(-48)%Z);
   (42949,42949,1,(-42307)%Z); (42950,42950,1,(-35384)%Z); (42951,42953,2,1%Z); (42960,42960,1,1%Z);
   (42966,42968,2,1%Z); (42997,42997,1,1%Z); (65313,65338,1,32%Z); (66560,66599,1,40%Z);
   (66736,66771,1,40%Z); (66928,66938,1,39%Z); (66940,66954,1,39%Z); (66956,66962,1,39%Z);
   (66964,66965,1,39%Z); (68736,68786,1,64%Z); (71840,71871,1,32%Z); (93760,93791,1,32%Z);
   (125184,125217,1,34%Z)
  ].

Definition case_ignorable_ranges : list (N * N) :=
  [
   (39,39); (46,46); (58,58); (94,94); (96,96); (168,168);
   (173,173); (175,175); (180,180); (183,184); (688,879); (884,885);
   (890,890); (900,901); (903,903); (1155,1161); (1369,1369); (1375,1375);
   (1425,1469); (1471,1471); (1473,1474); (1476,1477); (1479,1479); (1524,1524);
   (1536,1541); (1552,1562); (1564,1564); (1600,1600); (1611,1631); (1648,1648);
   (1750,1757); (1759,1768); (1770,1773); (1807,1807); (1809,1809); (1840,1866);
   (1958,1968); (2027,2037); (2042,2042); (2045,2045); (2070,2093); (2137,2139);
   (2184,2184); (2192,2193); (2200,2207); (2249,2306); (2362,2362); (2364,2364);
   (2369,2376); (2381,2381); (2385,2391); (2402,2403); (2417,2417); (2433,2433);
   (2492,2492); (2497,2500); (2509,2509); (2530,2531); (2558,2558); (2561,2562);
   (2620,2620); (2625,2626); (2631,2632); (2635,2637); (2641,2641); (2672,2673);
   (2677,2677); (2689,2690); (2748,2748); (2753,2757); (2759,2760); (2765,2765);
   (2786,2787); (2810,2815); (2817,2817); (2876,2876); (2879,2879); (2881,2884);
   (2893,2893); (2901,2902); (2914,2915); (2946,2946); (3008,3008); (3021,3021);
   (3072,3072); (3076,3076); (3132,3132); (3134,3136); (3142,3144); (3146,3149);
   (3157,3158); (3170,3171); (3201,3201); (3260,3260); (3263,3263); (3270,3270);
   (3276,3277); (3298,3299); (3328,3329); (3387,3388); (3393,3396); (3405,3405);
   (3426,3427); (3457,3457); (3530,3530); (3538,3540); (3542,3542); (3633,3633);
   (3636,3642); (3654,3662); (3761,3761); (3764,3772); (3782,3782); (3784,3789);
   (3864,3865); (3893,3893); (3895,3895); (3897,3897); (3953,3966); (3968,3972);
   (3974,3975); (3981,3991); (3993,4028); (4038,4038); (4141,4144); (4146,4151);
   (4153,4154); (4157,4158); (4184,4185); (4190,4192); (4209,4212); (4226,4226);
   (4229,4230); (4237,4237); (4253,4253); (4348,4348); (4957,4959); (5906,5908);
   (5938,5939); (5970,5971); (6002,6003); (6068,6069); (6071,6077); (6086,6086);
   (6089,6099); (6103,6103); (6109,6109); (6155,6159); (6211,6211); (6277,6278);
   (6313,6313); (6432,6434); (6439,6440); (6450,6450); (6457,6459); (6679,6680);
   (6683,6683); (6742,6742); (6744,6750); (6752,6752); (6754,6754); (6757,6764);
   (6771,6780); (6783,6783); (6823,6823); (6832,6862); (6912,6915); (6964,6964);
   (6966,6970); (6972,6972); (6978,6978); (7019,7027); (7040,7041); (7074,7077);
   (7080,7081); (7083,7085); (7142,7142); (7144,7145); (7149,7149); (7151,7153);
   (7212,7219); (7222,7223); (7288,7293); (7376,7378); (7380,7392); (7394,7400);
   (7405,7405); (7412,7412); (7416,7417); (7468,7530); (7544,7544); (7579,7679);
   (8125,8125); (8127,8129); (8141,8143); (8157,8159); (8173,8175); (8189,8190);
   (8203,8207); (8216,8217); (8228,8228); (8231,8231); (8234,8238); (8288,8292);
   (8294,8303); (8305,8305); (8319,8319); (8336,8348); (8400,8432); (11388,11389);
   (11503,11505); (11631,11631); (11647,11647); (11744,11775); (11823,11823); (12293,12293);
   (12330,12333); (12337,12341); (12347,12347); (12441,12446); (12540,12542); (40981,40981);
   (42232,42237); (42508,42508); (42607,42610); (42612,42621); (42623,42623); (42652,42655);
   (42736,42737); (42752,42785); (42864,42864); (42888,42890); (42994,42996); (43000,43001);
   (43010,43010); (43014,43014); (43019,43019); (43045,43046); (43052,43052); (43204,43205);
   (43232,43249); (43263,43263); (43302,43309); (43335,43345); (43392,43394); (43443,43443);
   (43446,43449); (43452,43453); (43471,43471); (43493,43494); (43561,43566); (43569,43570);
   (43573,43574); (43587,43587); (43596,43596); (43632,43632); (43644,43644); (43696,43696);
   (43698,43700); (43703,43704); (43710,43711); (43713,43713); (43741,43741); (43756,43757);
   (43763,43764); (43766,43766); (43867,43871); (43881,43883); (44005,44005); (44008,44008);
   (44013,44013); (64286,64286); (64434,64450); (65024,65039); (65043,65043); (65056,65071);
   (65106,65106); (65109,65109); (65279,65279); (65287,65287); (65294,65294); (65306,65306);
   (65342,65342); (65344,65344); (65392,65392); (65438,65439); (65507,65507); (65529,65531);
   (66045,66045); (66272,66272); (66422,66426); (67456,67461); (67463,67504); (67506,67514);
   (68097,68099); (68101,68102); (68108,68111); (68152,68154); (68159,68159); (68325,68326);
   (68900,68903); (69291,69292); (69446,69456); (69506,69509); (69633,69633); (69688,69702);
   (69744,69744); (69747,69748); (69759,69761); (69811,69814); (69817,69818); (69821,69821);
   (69826,69826); (69837,69837); (69888,69890); (69927,69931); (69933,69940); (70003,70003);
   (70016,70017); (70070,70078); (70089,70092); (70095,70095); (70191,70193); (70196,70196);
   (70198,70199); (70206,70206); (70367,70367); (70371,70378); (70400,70401); (70459,70460);
   (70464,70464); (70502,70508); (70512,70516); (70712,70719); (70722,70724); (70726,70726);
   (70750,70750); (70835,70840); (70842,70842); (70847,70848); (70850,70851); (71090,71093);
   (71100,71101); (71103,71104); (71132,71133); (71219,71226); (71229,71229); (71231,71232);
   (71339,71339); (71341,71341); (71344,71349); (71351,71351); (71453,71455); (71458,71461);
   (71463,71467); (71727,71735); (71737,71738); (71995,71996); (71998,71998); (72003,72003);
   (72148,72151); (72154,72155); (72160,72160); (72193,72202); (72243,72248); (72251,72254);
   (72263,72263); (72273,72278); (72281,72283); (72330,72342); (72344,72345); (72752,72758);
   (72760,72765); (72767,72767); (72850,72871); (72874,72880); (72882,72883); (72885,72886);
   (73009,73014); (73018,73018); (73020,73021); (73023,73029); (73031,73031); (73104,73105);
   (73109,73109); (73111,73111); (73459,73460); (78896,78904); (92912,92916); (92976,92982);
   (92992,92995); (94031,94031); (94095,94111); (94176,94177); (94179,94180); (110576,110579);
   (110581,110587); (110589,110590); (113821,113822); (113824,113827); (118528,118573); (118576,118598);
   (119143,119145); (119155,119170); (119173,119179); (119210,119213); (119362,119364); (121344,121398);
   (121403,121452); (121461,121461); (121476,121476); (121499,121503); (121505,121519); (122880,122886);
   (122888,122904); (122907,122913); (122915,122916); (122918,122922); (123184,123197); (123566,123566);
   (123628,123631); (125136,125142); (125252,125259); (127995,127999); (917505,917505); (917536,917631);
   (917760,917999)
  ].

Definition cased_ranges : list (N * N) :=
  [
   (65,90); (97,122); (170,170); (181,181); (186,186); (192,214);
   (216,246); (248,442); (444,447); (452,659); (661,687); (880,883);
   (886,887); (891,893); (895,895); (902,902); (904,906); (908,908);
   (910,929); (931,1013); (1015,1153); (1162,1327); (1329,1366); (1376,1416);
   (4256,4293); (4295,4295); (4301,4301); (4304,4346); (4349,4351); (5024,5109);
   (5112,5117); (7296,7304); (7312,7354); (7357,7359); (7424,7467); (7531,7543);
   (7545,7578); (7680,7957); (7960,7965); (7968,8005); (8008,8013); (8016,8023);
   (8025,8025); (8027,8027); (8029,8029); (8031,8061); (8064,8116); (8118,8124);
   (8126,8126); (8130,8132); (8134,8140); (8144,8147); (8150,8155); (8160,8172);
   (8178,8180); (8182,8188); (8450,8450); (8455,8455); (8458,8467); (8469,8469);
   (8473,8477); (8484,8484); (8486,8486); (8488,8488); (8490,8493); (8495,8500);
   (8505,8505); (8508,8511); (8517,8521); (8526,8526); (8544,8575); (8579,8580);
   (9398,9449); (11264,11387); (11390,11492); (11499,11502); (11506,11507); (11520,11557);
   (11559,11559); (11565,11565); (42560,42605); (42624,42651); (42786,42863); (42865,42887);
   (42891,42894); (42896,42954); (42960,42961); (42963,42963); (42965,42969); (42997,42998);
   (43002,43002); (43824,43866); (43872,43880); (43888,43967); (64256,64262); (64275,64279);
   (65313,65338); (65345,65370); (66560,66639); (66736,66771); (66776,66811); (66928,66938);
   (66940,66954); (66956,66962); (66964,66965); (66967,66977); (66979,66993); (66995,67001);
   (67003,67004); (68736,68786); (68800,68850); (71840,71903); (93760,93823); (119808,119892);
   (119894,119964); (119966,119967); (119970,119970); (119973,119974); (119977,119980); (119982,119993);
   (119995,119995); (119997,120003); (120005,120069); (120071,120074); (120077,120084); (120086,120092);
   (120094,120121); (120123,120126); (120128,120132); (120134,120134); (120138,120144); (120146,120485);
   (120488,120512); (120514,120538); (120540,120570); (120572,120596); (120598,120628); (120630,120654);
   (120656,120686); (120688,120712); (120714,120744); (120746,120770); (120772,120779); (122624,122633);
   (122635,122654); (125184,125251); (127280,127305); (127312,127337); (127344,127369)
  ].

Definition in_ranges (c : N) (rs : list (N * N)) : bool :=
  existsb (fun r => (fst r <=? c) && (c <=? snd r)) rs.

(** [str.isspace] on one character; also what [\s] matches and what
    [str.strip()] removes. *)
Definition isspace (c : N) : bool := in_ranges c space_ranges.

(** What [\d] matches in a [str] pattern. *)
Definition isdecimal (c : N) : bool := in_ranges c decimal_ranges.

(** [c.isdigit()]. *)
Definition isdigit (c : N) : bool := in_ranges c digit_ranges.

Definition is_case_ignorable (c : N) : bool := in_ranges c case_ignorable_ranges.

(** Cased and not case-ignorable: the final-sigma scan only asks whether a
    character is cased after it found it not to be case-ignorable. *)
Definition is_cased (c : N) : bool := in_ranges c cased_ranges.

(** A run [(lo, hi, step, delta)] maps every [step]-th code point from [lo]
    to [hi] to itself plus [delta]. *)
Definition in_run (c : N) (r : N * N * N * Z) : bool :=
  let '(lo, hi, step, _) := r in
  (lo <=? c) && (c <=? hi) && ((c - lo) mod step =? 0).

Definition to_lower_full (c : N) : str :=
  if c =? 304 then [105; 775]
  else match find (in_run c) lower_runs with
       | Some (_, _, _, delta) => [Z.to_N (Z.of_N c + delta)]
       | None => [c]
       end.

Definition first_non_ignorable (s : str) : option N :=
  find (fun c => negb (is_case_ignorable c)) s.

(** [handle_capital_sigma]: U+03A3 lowers to the final form U+03C2 when it
    follows a cased letter and no cased letter follows it (case-ignorable
    characters skipped on both sides). *)
Definition final_sigma (before_rev after : str) : bool :=
  match first_non_ignorable before_rev with
  | Some c =>
      is_cased c &&
      match first_non_ignorable after with
      | Some d => negb (is_cased d)
      | None => true
      end
  | None => false
  end.

Fixpoint lower_from (before_rev s : str) : str :=
  match s with
  | [] => []
  | c :: rest =>
      (if c =? 931
       then [if final_sigma before_rev rest then 962 else 963]
       else to_lower_full c)
      ++ lower_from (c :: before_rev) rest
  end.

(** [s.lower()] *)
Definition lower (s : str) : str := lower_from [] s.

Fixpoint lstrip (s : str) : str :=
  match s with
  | c :: rest => if isspace c then lstrip rest else s
  | [] => []
  end.

Definition rstrip (s : str) : str := rev (lstrip (rev s)).

(** [s.strip()] *)
Definition strip (s : str) : str := rstrip (lstrip s).

Definition streq (a b : str) : bool :=
  if list_eq_dec N.eq_dec a b then true else false.

Fixpoint startswith (s p : str) : bool :=
  match p, s with
  | [], _ => true
  | _ :: _, [] => false
  | x :: p', y :: s' => (x =? y) && startswith s' p'
  end.

(** [sub in s] *)
Fixpoint contains (sub s : str) : bool :=
  startswith s sub ||
  match s with
  | [] => false
  | _ :: s' => contains sub s'
  end.

(** Truthiness of a [str]: [not s] is [true] exactly for the empty string. *)
Definition not_ (s : str) : bool :=
  match s with [] => true | _ => false end.

End Py.

(** Python's [float] is an IEEE 754 double. *)
Module PyFloat.

Import PrimFloat.

(** [float(n)] for a small non-negative [int]. *)
Definition float_of_int (n : Z) : float := of_uint63 (Uint63.of_Z n).

(** The literal [0.7]: the double nearest to it. *)
Definition float_0_7 : float := 0x1.6666666666666p-1%float.

(** [k >= x] for an [int] [k] and a [float] [x]; Python compares the two
    exactly, and [float(k)] is exact for the small counts used here. *)
Definition int_ge_float (k : Z) (x : float) : bool := leb x (float_of_int k).

End PyFloat.

(* ================================================================== *)
(** * The fragment of [re] used by the source *)
(* ================================================================== *)

Module Re.

Import Py.
Local Open Scope N_scope.

(** One member of a bracketed character set. *)
Inductive citem : Type :=
| CChr (c : N)        (* a literal character *)
| CRng (lo hi : N)    (* [lo-hi] *)
| CDigit              (* \d *)
| CSpace.             (* \s *)

Definition cset := list citem.

Definition citem_matches (c : N) (i : citem) : bool :=
  match i with
  | CChr x => x =? c
  | CRng lo hi => (lo <=? c) && (c <=? hi)
  | CDigit => isdecimal c
  | CSpace => isspace c
  end.

Definition in_cset (cs : cset) (c : N) : bool := existsb (citem_matches c) cs.

(** Patterns.  Every repetition in the source ([\s*], [\d{1,2}], [\d{4}],
    [[...]+]) is over a single character set, which is also how [sre]
    compiles them (REPEAT_ONE); repetition is greedy. *)
Inductive regex : Type :=
| Eps
| Chars (cs : cset)
| Repeat (lo : nat) (hi : option nat) (cs : cset)
| Seq (r1 r2 : regex)
| Alt (r1 r2 : regex)
| Group (i : nat) (r : regex).

Fixpoint lit (s : str) : regex :=
  match s with
  | [] => Eps
  | [c] => Chars [CChr c]
  | c :: s' => Seq (Chars [CChr c]) (lit s')
  end.

(** The texts a pattern can match, and the groups it can bind: what the
    matcher below is measured against. *)
Fixpoint lang (r : regex) (w : str) : Prop :=
  match r with
  | Eps => w = []
  | Chars cs => exists c, w = [c] /\ in_cset cs c = true
  | Repeat lo hi cs =>
      forallb (in_cset cs) w = true
      /\ (lo <= length w)%nat
      /\ match hi with
         | Some h => (length w <= h)%nat
         | None => True
         end
  | Seq r1 r2 => exists w1 w2, w = w1 ++ w2 /\ lang r1 w1 /\ lang r2 w2
  | Alt r1 r2 => lang r1 w \/ lang r2 w
  | Group _ r1 => lang r1 w
  end.

Fixpoint group_ids (r : regex) : list nat :=
  match r with
  | Eps | Chars _ | Repeat _ _ _ => []
  | Seq r1 r2 | Alt r1 r2 => group_ids r1 ++ group_ids r2
  | Group i r1 => i :: group_ids r1
  end.

(** Captured groups, most recent binding first. *)
Definition groups := list (nat * str).

Fixpoint group (g : groups) (i : nat) : str :=
  match g with
  | [] => []
  | (j, v) :: g' => if Nat.eqb i j then v else group g' i
  end.

(** The backtracking matcher, in continuation-passing style: [k] is what
    remains to be matched after the current pattern, and a [None] from it
    makes the current pattern try its next alternative. *)
Definition found := option (str * groups).

Fixpoint repeat_greedy (cs : cset) (lo : nat) (hi : option nat) (s : str)
         (k : str -> found) : found :=
  let stop := match lo with O => k s | S _ => None end in
  match s with
  | [] => stop
  | c :: s' =>
      if in_cset cs c && match hi with Some O => false | _ => true end
      then match repeat_greedy cs (Nat.pred lo) (option_map Nat.pred hi) s' k with
           | Some x => Some x
           | None => stop
           end
      else stop
  end.

Fixpoint run (r : regex) (s : str) (g : groups)
         (k : str -> groups -> found) : found :=
  match r with
  | Eps => k s g
  | Chars cs =>
      match s with
      | c :: s' => if in_cset cs c then k s' g else None
      | [] => None
      end
  | Repeat lo hi cs => repeat_greedy cs lo hi s (fun s' => k s' g)
  | Seq r1 r2 => run r1 s g (fun s' g' => run r2 s' g' k)
  | Alt r1 r2 =>
      match run r1 s g k with
      | Some x => Some x
      | None => run r2 s g k
      end
  | Group i r1 =>
      run r1 s g
          (fun s' g' => k s' ((i, firstn (length s - length s') s) :: g'))
  end.

(** A match anchored at the start of [s]: the unmatched rest and the groups. *)
Definition match_at (r : regex) (s : str) : found :=
  run r s [] (fun s' g => Some (s', g)).

(** The same, refusing the empty match ([must_advance] in sre). *)
Definition match_nonempty_at (r : regex) (s : str) : found :=
  run r s []
      (fun s' g => if Nat.ltb (length s') (length s) then Some (s', g) else None).

Record rmatch : Type := mkMatch { m_text : str; m_groups : groups }.

(** [re.search]: the leftmost match. *)
Fixpoint search (r : regex) (s : str) : option rmatch :=
  match match_at r s with
  | Some (rest, g) => Some (mkMatch (firstn (length s - length rest) s) g)
  | None =>
      match s with
      | [] => None
      | _ :: s' => search r s'
      end
  end.

(** The scan shared by [findall], [split] and [sub]: the successive
    non-overlapping matches, and the characters between them.  [skip]
    counts the characters of [s] still inside the previous match.  After
    an empty match the next match at the same position must be non-empty. *)
Inductive piece : Type :=
| Gap (c : N)
| Hit (m : rmatch).

Fixpoint scan (r : regex) (skip : nat) (s : str) : list piece :=
  match s with
  | [] =>
      match skip with
      | O => match match_at r [] with
             | Some (_, g) => [Hit (mkMatch [] g)]
             | None => []
             end
      | S _ => []
      end
  | c :: s' =>
      match skip with
      | S n => scan r n s'
      | O =>
          match match_at r s with
          | None => Gap c :: scan r O s'
          | Some (rest, g) =>
              match (length s - length rest)%nat with
              | S n => Hit (mkMatch (firstn (S n) s) g) :: scan r n s'
              | O =>
                  Hit (mkMatch [] g) ::
                  match match_nonempty_at r s with
                  | Some (rest2, g2) =>
                      let n2 := (length s - length rest2)%nat in
                      Hit (mkMatch (firstn n2 s) g2) :: scan r (Nat.pred n2) s'
                  | None => Gap c :: scan r O s'
                  end
              end
          end
      end
  end.

Fixpoint hits (ps : list piece) : list rmatch :=
  match ps with
  | [] => []
  | Gap _ :: ps' => hits ps'
  | Hit m :: ps' => m :: hits ps'
  end.

Definition finditer (r : regex) (s : str) : list rmatch := hits (scan r O s).

(** [re.findall] for a pattern with one group: the list of its captures. *)
Definition findall1 (r : regex) (s : str) : list str :=
  map (fun m => group (m_groups m) 1) (finditer r s).

(** [re.findall] for a pattern with two groups: the list of capture pairs. *)
Definition findall2 (r : regex) (s : str) : list (str * str) :=
  map (fun m => (group (m_groups m) 1, group (m_groups m) 2)) (finditer r s).

(** [re.split] for a pattern without groups: the texts between matches. *)
Fixpoint split_pieces (cur_rev : str) (ps : list piece) : list str :=
  match ps with
  | [] => [rev cur_rev]
  | Gap c :: ps' => split_pieces (c :: cur_rev) ps'
  | Hit _ :: ps' => rev cur_rev :: split_pieces [] ps'
  end.

Definition split (r : regex) (s : str) : list str :=
  split_pieces [] (scan r O s).

(** [re.sub] with a replacement text free of back-references. *)
Fixpoint sub_pieces (repl : str) (ps : list piece) : str :=
  match ps with
  | [] => []
  | Gap c :: ps' => c :: sub_pieces repl ps'
  | Hit _ :: ps' => repl ++ sub_pieces repl ps'
  end.

Definition sub (r : regex) (repl s : str) : str :=
  sub_pieces repl (scan r O s).

End Re.

(* ================================================================== *)
(** * Effects: printing, exceptions, pipeline calls *)
(* ================================================================== *)

Module Eff.

Import Py.

(** An instance of a subclass of [Exception]: its class name and [str(e)].
    [KeyboardInterrupt] and the other [BaseException]-only signals, which
    [except Exception] lets through, are outside the model. *)
Record exception : Type := mkExc { exc_class : string; exc_msg : str }.

Definition ValueError (msg : string) : exception := mkExc "ValueError" (u msg).
Definition IndexError (msg : string) : exception := mkExc "IndexError" (u msg).
Definition KeyError (key : string) : exception :=
  mkExc "KeyError" (u "'" ++ u key ++ u "'").

Inductive outcome (A : Type) : Type :=
| Returned (a : A)
| Raised (e : exception).

Arguments Returned {A} a.
Arguments Raised {A} e.

(** What a call does that its caller can observe besides its outcome. *)
Inductive event : Type :=
| Stdout (line : str)
| CallNer (text : str)
| CallSummarizer (text : str) (max_length min_length : Z) (do_sample : bool).

Definition M (A : Type) : Type := (list event * outcome A)%type.

Definition ret {A} (a : A) : M A := ([], Returned a).

Definition raise {A} (e : exception) : M A := ([], Raised e).

Definition bind {A B} (m : M A) (f : A -> M B) : M B :=
  match m with
  | (t, Returned a) => let (t', o) := f a in (t ++ t', o)
  | (t, Raised e) => (t, Raised e)
  end.

(** [try: m  except Exception as e: h e] *)
Definition try_except {A} (m : M A) (h : exception -> M A) : M A :=
  match m with
  | (t, Raised e) => let (t', o) := h e in (t ++ t', o)
  | (t, Returned a) => (t, Returned a)
  end.

Definition print (line : str) : M unit := ([Stdout line], Returned tt).

(** A call of an external capability: logged, then its outcome. *)
Definition call {A} (ev : event) (o : outcome A) : M A := ([ev], o).

Definition trace {A} (m : M A) : list event := fst m.
Definition result {A} (m : M A) : outcome A := snd m.

Module Notations.
Notation "x <- m ;; k" := (bind m (fun x => k))
  (at level 61, m at next level, right associativity).
Notation "m ;;; k" := (bind m (fun _ => k))
  (at level 61, right associativity).
End Notations.

End Eff.

(* ================================================================== *)
(** * config.py *)
(* ================================================================== *)

Module Config.

Import Py.

Definition SUMMARY_MAX_LENGTH : Z := 150.
Definition SUMMARY_MIN_LENGTH : Z := 40.

Definition DEFAULT_JOB_TITLE : str := u "SAP Meister/Techniker".
Definition DEFAULT_EKP : str := u "X|YYY|XXX|Z".
Definition DEFAULT_SVS : str := u "€".
Definition DEFAULT_START_DATE : str := u "01.04.2025".

End Config.

(* ================================================================== *)
(** * models.py *)
(* ================================================================== *)

Module Models.

Import Py PyFloat Re Eff Eff.Notations Config.

Definition chr (s : string) : N := hd 0%N (u s).

(** ** Data *)

(** An item of the NER pipeline's output, a dict read through
    [entity.get('word', '')] and [entity.get('entity_group', '')]; [None]
    is an absent key. *)
Record entity : Type := mkEntity
  { word : option str;
    entity_group : option str }.

Definition get (v : option str) (default : str) : str :=
  match v with
  | Some x => x
  | None => default
  end.

(** An item of the summarization pipeline's output, read through
    [summary[0]['summary_text']]. *)
Record summary_item : Type := mkSummary { summary_text : option str }.

(** [self]: the two pipelines, [None] until loaded. *)
Record CVProcessor : Type := mkProcessor
  { ner_pipeline : option (str -> outcome (list entity));
    summarizer :
      option (str -> Z -> Z -> bool -> outcome (list summary_item)) }.

Module Experience.
Record t : Type := mk
  { period : str;
    company : str;
    description : str }.
End Experience.

Module Education.
Record t : Type := mk
  { period : str;
    institution : str;
    degree : str;
    description : str }.
End Education.

Module Skills.
Record t : Type := mk
  { edv_kenntnisse : list str;
    sonstige_techniken : list str;
    sprachkenntnisse : list str }.
End Skills.

(** The dict returned by [extract_candidate_data].  The last two keys are
    absent from it and only added by [generate_profile_from_text]. *)
Record profile : Type := mkProfile
  { job_title : str;
    einkaufskurzprofil : str;
    stundenverrechnungssatz : str;
    starttermin : str;
    name : str;
    email : str;
    phone : str;
    berufserfahrung : list Experience.t;
    ausbildung : list Education.t;
    edv_kenntnisse : list str;
    sonstige_techniken : list str;
    sprachkenntnisse : list str;
    summary : str;
    zusaetzliche_bemerkungen : str;
    referenzen : option str;
    zertifikate : option str }.

(** The part of [datetime.now()] that [strftime('%d.%m.%Y')] prints. *)
Record datetime : Type := mkDate { year : N; month : N; day : N }.

Definition digit_char (d : N) : N := (48 + d mod 10)%N.

Definition strftime_dmY (d : datetime) : str :=
  [digit_char (day d / 10); digit_char (day d)] ++ u "." ++
  [digit_char (month d / 10); digit_char (month d)] ++ u "." ++
  [digit_char (year d / 1000); digit_char (year d / 100);
   digit_char (year d / 10); digit_char (year d)].

(** ** extract_entities *)

Definition extract_entities (self : CVProcessor) (text : str)
  : M (list entity) :=
  match ner_pipeline self with
  | None => raise (ValueError "NER pipeline not loaded")
  | Some ner =>
      try_except
        (call (CallNer text) (ner text))
        (fun e =>
           print (u "Error in entity extraction: " ++ exc_msg e) ;;;
           ret [])
  end.

(** ** summarize_text *)

Definition fallback_summary : str :=
  u "Zusammenfassung konnte nicht erstellt werden.".

Definition summarize_text (self : CVProcessor) (text : str) : M str :=
  match summarizer self with
  | None => raise (ValueError "Summarizer pipeline not loaded")
  | Some summarize =>
      try_except
        (let max_input_length := 1024%nat in
         let text :=
           if Nat.ltb max_input_length (length text)
           then firstn max_input_length text
           else text in
         summary <- call
                      (CallSummarizer text SUMMARY_MAX_LENGTH
                                      SUMMARY_MIN_LENGTH false)
                      (summarize text SUMMARY_MAX_LENGTH
                                 SUMMARY_MIN_LENGTH false) ;;
         match summary with
         | [] => raise (IndexError "list index out of range")
         | item :: _ =>
             match summary_text item with
             | None => raise (KeyError "summary_text")
             | Some s => ret s
             end
         end)
        (fun e =>
           print (u "Error in text summarization: " ++ exc_msg e) ;;;
           ret fallback_summary)
  end.

(** ** Patterns *)

Definition digits (lo hi : nat) : regex := Repeat lo (Some hi) [CDigit].
Definition spaces : regex := Repeat 0 None [CSpace].
Definition dash : regex := Chars [CChr (chr "-"); CChr (chr "–")].
Definition month_year : regex :=
  Seq (digits 1 2) (Seq (lit (u "/")) (digits 4 4)).

(** [\s*[-–]\s*] *)
Definition range_dash : regex := Seq spaces (Seq dash spaces).

(** [(\d{1,2}\/\d{4}|\d{4})\s*[-–]\s*(\d{1,2}\/\d{4}|\d{4}|dato|heute)] *)
Definition experience_date_pattern : regex :=
  Seq (Group 1 (Alt month_year (digits 4 4)))
      (Seq range_dash
           (Group 2 (Alt month_year (Alt (digits 4 4)
                       (Alt (lit (u "dato")) (lit (u "heute"))))))).

(** [([A-ZÄÖÜÄ][a-zäöüß\s&,.-]+(?:AG|GmbH|KG|e\.V\.|Inc\.|Ltd\.|Co\.))] *)
Definition company_pattern : regex :=
  Group 1
    (Seq (Chars [CRng (chr "A") (chr "Z"); CChr (chr "Ä"); CChr (chr "Ö");
                 CChr (chr "Ü"); CChr (chr "Ä")])
       (Seq (Repeat 1 None
               [CRng (chr "a") (chr "z"); CChr (chr "ä"); CChr (chr "ö");
                CChr (chr "ü"); CChr (chr "ß"); CSpace; CChr (chr "&");
                CChr (chr ","); CChr (chr "."); CChr (chr "-")])
          (Alt (lit (u "AG")) (Alt (lit (u "GmbH")) (Alt (lit (u "KG"))
            (Alt (lit (u "e.V.")) (Alt (lit (u "Inc."))
              (Alt (lit (u "Ltd.")) (lit (u "Co.")))))))))).

(** [(\d{4})\s*[-–]\s*(\d{4}|dato|heute)] *)
Definition education_date_pattern : regex :=
  Seq (Group 1 (digits 4 4))
      (Seq range_dash
           (Group 2 (Alt (digits 4 4)
                       (Alt (lit (u "dato")) (lit (u "heute")))))).

(** [\n\s*\n] *)
Definition blank_line : regex :=
  Seq (Chars [CChr 10%N]) (Seq spaces (Chars [CChr 10%N])).

(** [[-\s()]] *)
Definition separator : regex :=
  Chars [CChr (chr "-"); CSpace; CChr (chr "("); CChr (chr ")")].

(** [f"{a} - {b}"] *)
Definition format_period (d : str * str) : str := fst d ++ u " - " ++ snd d.

(** [any(keyword in section.lower() for keyword in keywords)] *)
Definition any_keyword (keywords : list str) (section : str) : bool :=
  existsb (fun keyword => contains keyword (lower section)) keywords.

(** ** extract_work_experience *)

Definition experience_keywords : list str :=
  [u "erfahrung"; u "tätigkeit"; u "position"; u "stelle"].

Definition extract_work_experience (text : str) : list Experience.t :=
  let sections := split blank_line text in
  fold_left
    (fun experiences section =>
       if any_keyword experience_keywords section then
         let dates := findall2 experience_date_pattern section in
         let companies := findall1 company_pattern section in
         match dates, companies with
         | d0 :: _, c0 :: _ =>
             experiences ++
               [Experience.mk (format_period d0) c0 (strip section)]
         | _, _ => experiences
         end
       else experiences)
    sections [].

(** ** extract_education *)

Definition education_keywords : list str :=
  [u "ausbildung"; u "studium"; u "weiterbildung"; u "abschluss";
   u "universität"; u "hochschule"; u "schule"].

Definition extract_education (text : str) : list Education.t :=
  let sections := split blank_line text in
  fold_left
    (fun education section =>
       if any_keyword education_keywords section then
         let dates := findall2 education_date_pattern section in
         education ++
           [Education.mk
              (match dates with d0 :: _ => format_period d0 | [] => [] end)
              [] [] (strip section)]
       else education)
    sections [].

(** ** extract_skills *)

Definition it_skills : list str :=
  [u "SAP"; u "MS-Word"; u "MS-Excel"; u "MS-Outlook"; u "Python";
   u "Java"; u "SQL"; u "HTML"; u "CSS"].

Definition technical_skills : list str :=
  [u "Schienenfahrzeugbau"; u "Dokumentation"; u "Koordination";
   u "Projektmanagement"].

Definition languages : list str :=
  [u "Deutsch"; u "Englisch"; u "Französisch"; u "Spanisch"; u "Italienisch"].

(** [for skill in vocabulary: if skill.lower() in text_lower: acc.append(skill)] *)
Definition collect_skills (vocabulary : list str) (text_lower : str)
  : list str :=
  fold_left
    (fun acc skill =>
       if contains (lower skill) text_lower then acc ++ [skill] else acc)
    vocabulary [].

Definition extract_skills (text : str) : Skills.t :=
  let text_lower := lower text in
  Skills.mk (collect_skills it_skills text_lower)
            (collect_skills technical_skills text_lower)
            (collect_skills languages text_lower).

(** ** _is_phone_number *)

(** [sum(c.isdigit() for c in s)] *)
Definition count_digits (s : str) : Z :=
  Z.of_nat (length (filter isdigit s)).

Definition _is_phone_number (text : str) : bool :=
  let clean_text := sub separator [] text in
  let n := Z.of_nat (length clean_text) in
  if (7 <=? n)%Z then
    if (n <=? 15)%Z then
      int_ge_float (count_digits clean_text)
                   (PrimFloat.mul (float_of_int n) float_0_7)
    else false
  else false.

(** ** extract_candidate_data *)

Definition _get_empty_template : profile :=
  {| job_title := [];
     einkaufskurzprofil := [];
     stundenverrechnungssatz := u "€";
     starttermin := [];
     name := [];
     email := [];
     phone := [];
     berufserfahrung := [];
     ausbildung := [];
     edv_kenntnisse := [];
     sonstige_techniken := [];
     sprachkenntnisse := [];
     summary := [];
     zusaetzliche_bemerkungen := [];
     referenzen := None;
     zertifikate := None |}.

(** The three identity variables of the loop over [ner_results]. *)
Record identity : Type := mkIdentity
  { id_name : str; id_email : str; id_phone : str }.

(** One iteration: the [if] / [elif] / [elif] on one entity. *)
Definition resolve_step (st : identity) (e : entity) : identity :=
  let entity_text := get (word e) [] in
  let entity_group := get (entity_group e) [] in
  if streq entity_group (u "PER") && not_ (id_name st) then
    mkIdentity entity_text (id_email st) (id_phone st)
  else if streq entity_group (u "MISC") && contains (u "@") entity_text
          && not_ (id_email st) then
    mkIdentity (id_name st) entity_text (id_phone st)
  else if streq entity_group (u "MISC") && _is_phone_number entity_text
          && not_ (id_phone st) then
    mkIdentity (id_name st) (id_email st) entity_text
  else st.

Definition resolve_identity (ner_results : list entity) : identity :=
  fold_left resolve_step ner_results (mkIdentity [] [] []).

Definition extract_candidate_data (self : CVProcessor) (now : datetime)
           (raw_text : str) : M profile :=
  if not_ raw_text || not_ (strip raw_text) then ret _get_empty_template
  else
    ner_results <- extract_entities self raw_text ;;
    let id := resolve_identity ner_results in
    let work_experience := extract_work_experience raw_text in
    let education := extract_education raw_text in
    let skills := extract_skills raw_text in
    summary <- summarize_text self raw_text ;;
    ret {| job_title := u "SAP Meister/Techniker";
           einkaufskurzprofil := u "X|YYY|XXX|Z";
           stundenverrechnungssatz := u "€";
           starttermin := u "01.04.2025";
           name := id_name id;
           email := id_email id;
           phone := id_phone id;
           berufserfahrung := work_experience;
           ausbildung := education;
           edv_kenntnisse := Skills.edv_kenntnisse skills;
           sonstige_techniken := Skills.sonstige_techniken skills;
           sprachkenntnisse := Skills.sprachkenntnisse skills;
           summary := summary;
           zusaetzliche_bemerkungen :=
             u "Profil automatisch generiert am " ++ strftime_dmY now;
           referenzen := None;
           zertifikate := None |}.

End Models.

(* ================================================================== *)
(** * app.py *)
(* ================================================================== *)

Module App.

Import Py Eff Eff.Notations Config Models.

(** [if not d.get(key): d[key] = default] *)
Definition or_default (v default : str) : str :=
  if not_ v then default else v.

Definition generate_profile_from_text (self : CVProcessor) (now : datetime)
           (cv_text references certificates : str) : M profile :=
  extracted_data <- extract_candidate_data self now cv_text ;;
  let remarks := zusaetzliche_bemerkungen extracted_data in
  let remarks :=
    if negb (not_ references) || negb (not_ certificates) then
      remarks ++ [10%N; 10%N] ++ u "Zusätzliche Informationen:" ++ [10%N]
      ++ (if negb (not_ references)
          then u "- Referenzen: " ++ references ++ [10%N] else [])
      ++ (if negb (not_ certificates)
          then u "- Zertifikate: " ++ certificates ++ [10%N] else [])
    else remarks in
  ret {| job_title := or_default (job_title extracted_data) DEFAULT_JOB_TITLE;
         einkaufskurzprofil :=
           or_default (einkaufskurzprofil extracted_data) DEFAULT_EKP;
         stundenverrechnungssatz :=
           or_default (stundenverrechnungssatz extracted_data) DEFAULT_SVS;
         starttermin :=
           or_default (starttermin extracted_data) DEFAULT_START_DATE;
         name := name extracted_data;
         email := email extracted_data;
         phone := phone extracted_data;
         berufserfahrung := berufserfahrung extracted_data;
         ausbildung := ausbildung extracted_data;
         edv_kenntnisse := edv_kenntnisse extracted_data;
         sonstige_techniken := sonstige_techniken extracted_data;
         sprachkenntnisse := sprachkenntnisse extracted_data;
         summary := summary extracted_data;
         zusaetzliche_bemerkungen := remarks;
         referenzen :=
           if not_ references then referenzen extracted_data
           else Some references;
         zertifikate :=
           if not_ certificates then zertifikate extracted_data
           else Some certificates |}.

End App.

(* ================================================================== *)
(** * The specification's vocabulary *)
(* ================================================================== *)

(** Definitions that follow the words of the specification, against which
    the functions above are compared. *)
Module Spec.

Import Py Re Eff Config Models.

(** ** Blocks and pattern matches *)

(** The blank-line-delimited blocks of a text. *)
Definition blocks (text : str) : list str := split blank_line text.

(** The two sides of the first date-range match in a block. *)
Definition first_date_range (pattern : regex) (block : str)
  : option (str * str) :=
  option_map (fun m => (group (m_groups m) 1, group (m_groups m) 2))
             (search pattern block).

(** The first legal-suffix organization match in a block. *)
Definition first_organization (block : str) : option str :=
  option_map m_text (search company_pattern block).

Definition is_some {A} (o : option A) : bool :=
  match o with Some _ => true | None => false end.

(** The company forms that close an organization name. *)
Definition legal_suffixes : list str :=
  [u "AG"; u "GmbH"; u "KG"; u "e.V."; u "Inc."; u "Ltd."; u "Co."].

Definition ends_with_legal_suffix (company : str) : Prop :=
  exists stem suffix, company = stem ++ suffix /\ In suffix legal_suffixes.

(** A block that yields an experience entry. *)
Definition is_experience_block (block : str) : bool :=
  any_keyword experience_keywords block
  && is_some (first_date_range experience_date_pattern block)
  && is_some (first_organization block).

(** [f"{a} - {b}"] for a date range, [''] without one. *)
Definition joined (d : option (str * str)) : str :=
  match d with
  | Some (a, b) => a ++ u " - " ++ b
  | None => []
  end.

(** What one block contributes to the work experience: one entry when it
    has a keyword, a date range and an organization, nothing otherwise. *)
Definition experience_entries (block : str) : list Experience.t :=
  if any_keyword experience_keywords block then
    match first_date_range experience_date_pattern block,
          first_organization block with
    | Some d, Some c => [Experience.mk (joined (Some d)) c (strip block)]
    | _, _ => []
    end
  else [].

(** Four decimal digits: a year. *)
Definition is_year (w : str) : Prop :=
  length w = 4%nat /\ forallb isdecimal w = true.

(** A period as the education pattern admits it: a year, [" - "], and a
    year or one of the words for an open end. *)
Definition year_period (p : str) : Prop :=
  exists a b,
    p = a ++ u " - " ++ b /\ is_year a
    /\ (is_year b \/ b = u "dato" \/ b = u "heute").

Definition is_education_block (block : str) : bool :=
  any_keyword education_keywords block.

(** What one block contributes to the education: one entry when it has a
    keyword, whether or not it has a date range. *)
Definition education_entries (block : str) : list Education.t :=
  if is_education_block block then
    [Education.mk (joined (first_date_range education_date_pattern block))
                  [] [] (strip block)]
  else [].

(** ** Skill matching *)

(** A vocabulary term occurs in the text, case-insensitively and without
    regard to word boundaries. *)
Definition term_occurs (text term : str) : bool :=
  contains (lower term) (lower text).

(** What is asked of one category's result: the vocabulary terms that
    occur, in vocabulary order, each once. *)
Definition matches_vocabulary (vocabulary result : list str) (text : str)
  : Prop :=
  result = filter (term_occurs text) vocabulary
  /\ (forall term, In term result <->
                   In term vocabulary /\ term_occurs text term = true)
  /\ NoDup result.

(** ** Identity resolution *)

Definition text_of (e : entity) : str := get (word e) [].
Definition tag_of (e : entity) : str := get (entity_group e) [].

Definition is_person (e : entity) : bool := streq (tag_of e) (u "PER").
Definition is_misc (e : entity) : bool := streq (tag_of e) (u "MISC").

(** The phone-shape heuristic in exact arithmetic: with the separators
    [-], whitespace, [(] and [)] removed, 7 to 15 characters of which at
    least 70% are digits. *)
Definition is_separator (c : N) : bool :=
  N.eqb c (chr "-") || isspace c || N.eqb c (chr "(") || N.eqb c (chr ")").

Definition phone_shape (text : str) : bool :=
  let clean := filter (fun c => negb (is_separator c)) text in
  let n := Z.of_nat (length clean) in
  let d := Z.of_nat (length (filter isdigit clean)) in
  (7 <=? n)%Z && (n <=? 15)%Z && (7 * n <=? 10 * d)%Z.

Definition is_email_candidate (e : entity) : bool :=
  is_misc e && contains (u "@") (text_of e).

Definition is_phone_candidate (e : entity) : bool :=
  is_misc e && phone_shape (text_of e).

Definition is_name_candidate (e : entity) : bool :=
  is_person e && negb (not_ (text_of e)).

(** The text of the first entity with a property, [''] when there is none. *)
Definition first_text (P : entity -> bool) (entities : list entity) : str :=
  match find P entities with
  | Some e => text_of e
  | None => []
  end.

(** Identity resolution as the specification words it: three independent
    first-match selections. *)
Definition resolve_identity_stated (entities : list entity) : identity :=
  mkIdentity (first_text is_person entities)
             (first_text is_email_candidate entities)
             (first_text is_phone_candidate entities).

Fixpoint remove_first (P : entity -> bool) (entities : list entity)
  : list entity :=
  match entities with
  | [] => []
  | e :: rest => if P e then rest else e :: remove_first P rest
  end.

(** Identity resolution with the two precisions the code makes: a person
    entity with empty text does not settle the name, and the entity taken
    as email is not considered for phone. *)
Definition resolve_identity_amended (entities : list entity) : identity :=
  mkIdentity (first_text is_name_candidate entities)
             (first_text is_email_candidate entities)
             (first_text is_phone_candidate
                         (remove_first is_email_candidate entities)).

(** ** Header fields *)

Definition header_empty (p : profile) : Prop :=
  job_title p = [] /\ einkaufskurzprofil p = [] /\
  stundenverrechnungssatz p = [] /\ starttermin p = [].

Definition header_defaults (p : profile) : Prop :=
  job_title p = DEFAULT_JOB_TITLE /\ einkaufskurzprofil p = DEFAULT_EKP /\
  stundenverrechnungssatz p = DEFAULT_SVS /\
  starttermin p = DEFAULT_START_DATE.

(** The core leaves the header to the defaulting layer. *)
Definition core_leaves_header_empty (self : CVProcessor) (now : datetime)
           (raw_text : str) : Prop :=
  forall p, result (extract_candidate_data self now raw_text) = Returned p ->
            header_empty p.

(** ** Failure of the recognizer *)


(** Input that takes the full extraction path. *)
Definition blank (raw_text : str) : bool :=
  not_ raw_text || not_ (strip raw_text).

(** Every field but the generation remark. *)
Definition same_but_remark (p q : profile) : Prop :=
  job_title p = job_title q /\
  einkaufskurzprofil p = einkaufskurzprofil q /\
  stundenverrechnungssatz p = stundenverrechnungssatz q /\
  starttermin p = starttermin q /\
  name p = name q /\ email p = email q /\ phone p = phone q /\
  berufserfahrung p = berufserfahrung q /\
  ausbildung p = ausbildung q /\
  edv_kenntnisse p = edv_kenntnisse q /\
  sonstige_techniken p = sonstige_techniken q /\
  sprachkenntnisse p = sprachkenntnisse q /\
  summary p = summary q.

(** The profile assembled on the full extraction path from the entities
    and the summary obtained. *)
Definition full_profile (now : datetime) (raw_text : str)
           (ner_results : list entity) (summary : str) : profile :=
  {| job_title := u "SAP Meister/Techniker";
     einkaufskurzprofil := u "X|YYY|XXX|Z";
     stundenverrechnungssatz := u "€";
     starttermin := u "01.04.2025";
     name := id_name (resolve_identity ner_results);
     email := id_email (resolve_identity ner_results);
     phone := id_phone (resolve_identity ner_results);
     berufserfahrung := extract_work_experience raw_text;
     ausbildung := extract_education raw_text;
     edv_kenntnisse := Skills.edv_kenntnisse (extract_skills raw_text);
     sonstige_techniken := Skills.sonstige_techniken (extract_skills raw_text);
     sprachkenntnisse := Skills.sprachkenntnisse (extract_skills raw_text);
     summary := summary;
     zusaetzliche_bemerkungen :=
       u "Profil automatisch generiert am " ++ strftime_dmY now;
     referenzen := None;
     zertifikate := None |}.

(** Two runs log the same events and end alike: both raise the same
    exception, or both return, with values related by [R]. *)
Definition agree {A} (R : A -> A -> Prop) (m1 m2 : M A) : Prop :=
  trace m1 = trace m2
  /\ match result m1, result m2 with
     | Returned a, Returned b => R a b
     | Raised e1, Raised e2 => e1 = e2
     | _, _ => False
     end.



End Spec.

(* ================================================================== *)
(** * Fixtures *)
(* ================================================================== *)

(** Mocked pipelines and sample inputs for the worked examples. *)
Module Fixtures.

Import Py Re Eff Config Models.

Definition ent (tag text : string) : entity :=
  mkEntity (Some (u text)) (Some (u tag)).

(** A summarizer that answers with the first twenty characters. *)
Definition prefix_summarizer
  : str -> Z -> Z -> bool -> outcome (list summary_item) :=
  fun text _ _ _ => Returned [mkSummary (Some (firstn 20 text))].

Definition failing_summarizer
  : str -> Z -> Z -> bool -> outcome (list summary_item) :=
  fun _ _ _ _ => Raised (mkExc "RuntimeError" (u "CUDA out of memory")).

Definition contact_entities : list entity :=
  [ent "PER" "Max Mustermann"; ent "MISC" "max@firma.de";
   ent "MISC" "+49 176 1234567"; ent "PER" "Erika Musterfrau"].

Definition mock_processor : CVProcessor :=
  mkProcessor (Some (fun _ => Returned contact_entities))
              (Some prefix_summarizer).

(** The recognizer is loaded but raises on every call. *)
Definition erroring_ner_processor : CVProcessor :=
  mkProcessor (Some (fun _ => Raised (mkExc "RuntimeError" (u "inference failed"))))
              (Some prefix_summarizer).

(** The recognizer is loaded and finds nothing. *)
Definition silent_ner_processor : CVProcessor :=
  mkProcessor (Some (fun _ => Returned [])) (Some prefix_summarizer).

(** The recognizer was never loaded. *)
Definition unloaded_processor : CVProcessor :=
  mkProcessor None (Some prefix_summarizer).


Definition today : datetime := mkDate 2025 4 1.
Definition tomorrow : datetime := mkDate 2025 4 2.

Definition sample_cv : str :=
  u "Erfahrung
2019 - 2021 Beispiel GmbH

Studium Informatik

Ich nutze SAP und Python bei Projektmanagement".

(** Space, line feed, tab, no-break space, em space. *)
Definition whitespace_only : str := [32; 10; 9; 160; 8195]%N.

(** A text longer than the summarizer's input bound. *)
Definition long_text : str := repeat 97%N 2000.

(** An address-like token that also has the shape of a phone number,
    followed by a plain number. *)
Definition ambiguous_entities : list entity :=
  [ent "MISC" "1234567@"; ent "MISC" "7654321"].

(** A person entity without text before one with a name. *)
Definition nameless_first : list entity :=
  [mkEntity (Some []) (Some (u "PER")); ent "PER" "Max Mustermann"].

End Fixtures.

(* ================================================================== *)
(** * utils.py: the functions app.py calls *)
(* ================================================================== *)

Module Utils.

Import Py Eff Eff.Notations Models.

(** ** read_pdf_content *)

(** What [fitz.open(path)] gives: an error, or the pages, each of which
    answers [get_text()] with its text or an error. *)
Definition pdf_document : Type := outcome (list (outcome str)).

(** [for page in doc: text += page.get_text()] *)
Fixpoint read_pages (pages : list (outcome str)) (text : str) : M str :=
  match pages with
  | [] => ret text
  | page :: rest =>
      page_text <- ([], page) ;;
      read_pages rest (text ++ page_text)
  end.

Definition read_pdf_content (fitz_open : str -> pdf_document) (pdf_path : str)
  : M str :=
  try_except
    (doc <- ([], fitz_open pdf_path) ;;
     read_pages doc [])
    (fun e =>
       print (u "Error reading PDF: " ++ exc_msg e) ;;;
       ret []).

(** ** format_profile_text *)

(** ['\n'.join(lines)] *)
Fixpoint join (sep : str) (lines : list str) : str :=
  match lines with
  | [] => []
  | [line] => line
  | line :: rest => line ++ sep ++ join sep rest
  end.

(** [for x in items: lines.append(...)], several lines per item. *)
Definition append_each {A} (lines : list str) (items : list A)
           (f : A -> list str) : list str :=
  fold_left (fun lines x => lines ++ f x) items lines.

Definition skill_row (skill : str) : str :=
  u "| " ++ skill ++ u ": | Advanced |".

Definition format_profile_lines (profile_data : profile) : list str :=
  let lines :=
    [u "**Titel des Job Postings**";
     [];
     u "| | **angefragt** | **falls abweichend** |";
     u "|---|---|---|";
     u "| **Einkaufskurzprofil (EKP)** | | "
       ++ einkaufskurzprofil profile_data ++ u " |";
     u "| **Stundenverrechnungssatz (SVS)** | **"
       ++ stundenverrechnungssatz profile_data ++ u "** | **€** |";
     u "| **Möglicher Starttermin** | "
       ++ starttermin profile_data ++ u " | |";
     [];
     u "**Berufserfahrung:**";
     []] in
  let lines :=
    append_each lines (berufserfahrung profile_data)
      (fun exp =>
         [u "**" ++ Experience.period exp ++ u "** | "
            ++ Experience.company exp;
          Experience.description exp;
          []]) in
  let lines := lines ++ [u "**Ausbildung:**"; []] in
  let lines :=
    append_each lines (ausbildung profile_data)
      (fun edu =>
         [u "**" ++ Education.period edu ++ u "** | "
            ++ Education.institution edu;
          Education.description edu;
          []]) in
  let lines :=
    lines ++ [u "**Kompetenzen:**"; []; u "EDV-Kenntnisse:"; []] in
  let lines :=
    append_each lines (edv_kenntnisse profile_data)
      (fun skill => [skill_row skill]) in
  let lines := lines ++ [[]; u "Sonstige Techniken:"; []] in
  let lines :=
    append_each lines (sonstige_techniken profile_data)
      (fun skill => [skill_row skill]) in
  let lines := lines ++ [[]; u "Sprachkenntnisse:"; []] in
  let lines :=
    append_each lines (sprachkenntnisse profile_data)
      (fun lang => [skill_row lang]) in
  lines ++ [[]; u "**Zusätzliche Bemerkungen**"; [];
            zusaetzliche_bemerkungen profile_data].

Definition format_profile_text (profile_data : profile) : str :=
  join [10%N] (format_profile_lines profile_data).

(** ** create_german_cv_docx: the document it builds *)

(** The body of a python-docx [Document], as far as the function fills it:
    tables as rows of cell texts with their style, paragraphs, headings. *)
Inductive element : Type :=
| Table (style : str) (rows : list (list str))
| Paragraph (text : str)
| Heading (text : str) (level : Z).

Definition document : Type := list element.

Definition grid (rows : list (list str)) : element :=
  Table (u "Table Grid") rows.

(** [for x in items: doc.add_...], several elements per item. *)
Definition add_each {A} (doc : document) (items : list A)
           (f : A -> list element) : document :=
  fold_left (fun doc x => doc ++ f x) items doc.

(** The keys [vorname], [nachname], [geburtsdatum], [geburtsort] and
    [staatsangehoerigkeit] are in no dict that [extract_candidate_data] or
    [generate_profile_from_text] returns: [profile_data.get(key, '')] is
    [''] for each.  The personal table has seven rows, of which six are
    filled. *)
Definition german_cv_document (profile_data : profile) : document :=
  let doc :=
    [grid [[u "Titel des Job Postings"; []; []];
           [[]; u "angefragt"; u "falls abweichend"];
           [u "Einkaufskurzprofil (EKP)"; [];
            einkaufskurzprofil profile_data];
           [u "Stundenverrechnungssatz (SVS)";
            stundenverrechnungssatz profile_data; u "€"]];
     Paragraph [];
     grid [[u "Möglicher Starttermin (verfügbar ab / Kündigungsfrist)";
            starttermin profile_data; []]];
     Paragraph [];
     Heading (u "Persönliche Daten des Zeitarbeitnehmers") 2;
     grid [[u "Anrede"; []];
           [u "Vorname"; []];
           [u "Nachname"; []];
           [u "Geburtsdatum"; []];
           [u "Geburtsort"; []];
           [u "Staatsangehörigkeit"; []];
           [[]; []]];
     Paragraph [];
     Heading (u "Berufserfahrung:") 2] in
  let doc :=
    add_each doc (berufserfahrung profile_data)
      (fun exp =>
         [grid [[Experience.period exp;
                 Experience.company exp ++ [10%N; 10%N]
                   ++ Experience.description exp]];
          Paragraph []]) in
  let doc := doc ++ [Heading (u "Ausbildung:") 2] in
  let doc :=
    add_each doc (ausbildung profile_data)
      (fun edu =>
         [grid [[Education.period edu;
                 Education.institution edu ++ [10%N; 10%N]
                   ++ Education.description edu]];
          Paragraph []]) in
  let doc :=
    doc ++ [Heading (u "Kompetenzen:") 2; Paragraph (u "EDV-Kenntnisse:")] in
  let doc :=
    add_each doc (edv_kenntnisse profile_data)
      (fun skill => [grid [[skill ++ u ":"; u "Advanced"]]]) in
  let doc := doc ++ [Paragraph []; Paragraph (u "Sonstige Techniken:")] in
  let doc :=
    add_each doc (sonstige_techniken profile_data)
      (fun skill => [grid [[skill ++ u ":"; u "Advanced"]]]) in
  let doc := doc ++ [Paragraph []; Paragraph (u "Sprachkenntnisse:")] in
  let doc :=
    add_each doc (sprachkenntnisse profile_data)
      (fun lang =>
         [grid [[lang ++ u ":";
                 if streq lang (u "Hindi") then u "Expert"
                 else u "Advanced"]]]) in
  doc ++ [Paragraph [];
          Heading (u "Zusätzliche Bemerkungen") 2;
          grid [[zusaetzliche_bemerkungen profile_data]]].

End Utils.

(* ================================================================== *)
(** * The process: global processor, model loading, files *)
(* ================================================================== *)

Module Process.

Import Py Eff Config Models Utils.

Definition NER_MODEL : str := u "nakamoto-yama/t5-resume-generation".
Definition SUMMARIZATION_MODEL : str := u "sshleifer/distilbart-cnn-12-6".
Definition DEFAULT_DOCX_FILENAME : str := u "Bewerberprofil.docx".

Definition ner_fn : Type := str -> outcome (list entity).
Definition summarizer_fn : Type :=
  str -> Z -> Z -> bool -> outcome (list summary_item).

(** What the process finds around it: [torch.cuda.is_available()], the
    answer of [transformers.pipeline] for the two tasks (model name and
    device given), [fitz.open], [os.makedirs] and [Document.save]. *)
Record environment : Type := mkEnv
  { cuda_is_available : bool;
    pipeline_ner : str -> Z -> outcome ner_fn;
    pipeline_summarization : str -> Z -> outcome summarizer_fn;
    fitz_open : str -> pdf_document;
    makedirs : str -> outcome unit;
    docx_save : str -> document -> outcome unit }.

(** Events of the process: those of the core, and the calls out of it. *)
Inductive sys_event : Type :=
| Core (e : event)
| LoadPipeline (task model : str) (device : Z)
| MakeDirs (path : str)
| SaveDocx (path : str) (doc : document).

(** Code that reads and writes a state [S] (the object under
    construction, or the module's global), logs events, and returns or
    raises. *)
Definition ST (S A : Type) : Type := S -> list sys_event * outcome A * S.

Definition sret {S A} (a : A) : ST S A := fun st => ([], Returned a, st).

Definition sraise {S A} (e : exception) : ST S A :=
  fun st => ([], Raised e, st).

Definition sbind {S A B} (m : ST S A) (f : A -> ST S B) : ST S B :=
  fun st =>
    match m st with
    | (t, Returned a, st') =>
        let '(t', o, st'') := f a st' in (t ++ t', o, st'')
    | (t, Raised e, st') => (t, Raised e, st')
    end.

(** [try: m  except Exception as e: h e]; what [m] did to the state
    before it raised stays done. *)
Definition stry {S A} (m : ST S A) (h : exception -> ST S A) : ST S A :=
  fun st =>
    match m st with
    | (t, Raised e, st') =>
        let '(t', o, st'') := h e st' in (t ++ t', o, st'')
    | (t, Returned a, st') => (t, Returned a, st')
    end.

(** Code of the core, run as it is. *)
Definition lift {S A} (m : M A) : ST S A :=
  fun st => (map Core (trace m), result m, st).

(** A call out of the process: logged, then its outcome. *)
Definition perform {S A} (ev : sys_event) (o : outcome A) : ST S A :=
  fun st => ([ev], o, st).

Definition sprint {S} (line : str) : ST S unit := lift (print line).

Definition modify {S} (f : S -> S) : ST S unit :=
  fun st => ([], Returned tt, f st).

Local Notation "x <- m ;; k" := (sbind m (fun x => k))
  (at level 61, m at next level, right associativity).
Local Notation "m ;;; k" := (sbind m (fun _ => k))
  (at level 61, right associativity).

(** ** CVProcessor.__init__ and _load_models *)

Definition device_name (env : environment) : str :=
  if cuda_is_available env then u "cuda" else u "cpu".

(** [0 if self.device == "cuda" else -1] *)
Definition device_index (env : environment) : Z :=
  if streq (device_name env) (u "cuda") then 0%Z else (-1)%Z.

(** The state is [self]; [self.device] is only read here and is taken
    from the environment. *)
Definition _load_models (env : environment) : ST CVProcessor unit :=
  sprint (u "Loading models...") ;;;
  stry
    (ner <- perform (LoadPipeline (u "ner") NER_MODEL (device_index env))
                    (pipeline_ner env NER_MODEL (device_index env)) ;;
     modify (fun self => mkProcessor (Some ner) (summarizer self)) ;;;
     summarize <- perform (LoadPipeline (u "summarization")
                                        SUMMARIZATION_MODEL
                                        (device_index env))
                          (pipeline_summarization env SUMMARIZATION_MODEL
                                                  (device_index env)) ;;
     modify (fun self => mkProcessor (ner_pipeline self) (Some summarize)) ;;;
     sprint (u "Models loaded successfully on " ++ device_name env))
    (fun e =>
       sprint (u "Error loading models: " ++ exc_msg e) ;;;
       sraise e).

(** [CVProcessor()]: the new object when [__init__] returns. *)
Definition new_CVProcessor (env : environment)
  : list sys_event * outcome CVProcessor :=
  match _load_models env (mkProcessor None None) with
  | (t, Returned _, self) => (t, Returned self)
  | (t, Raised e, _) => (t, Raised e)
  end.

(** ** The global instance *)

(** The state is the module's [cv_processor]. *)
Definition get_cv_processor (env : environment)
  : ST (option CVProcessor) CVProcessor :=
  fun cv_processor =>
    match cv_processor with
    | None =>
        match new_CVProcessor env with
        | (t, Returned self) => (t, Returned self, Some self)
        | (t, Raised e) => (t, Raised e, None)
        end
    | Some self => ([], Returned self, cv_processor)
    end.

(** The module-level [extract_candidate_data]. *)
Definition extract_candidate_data (env : environment) (now : datetime)
           (raw_text : str) : ST (option CVProcessor) profile :=
  processor <- get_cv_processor env ;;
  lift (Models.extract_candidate_data processor now raw_text).

(** ** app.py on the global instance *)

(** [generate_profile_from_text], whose first step is the module-level
    [extract_candidate_data]. *)
Definition generate_profile_from_text (env : environment) (now : datetime)
           (cv_text references certificates : str)
  : ST (option CVProcessor) profile :=
  processor <- get_cv_processor env ;;
  lift (App.generate_profile_from_text processor now cv_text
                                       references certificates).

(** [os.path.join(a, b)] for a relative [b], on POSIX. *)
Definition path_join (a b : str) : str := a ++ u "/" ++ b.

Definition create_output_directory {S} (env : environment) (directory : str)
  : ST S unit :=
  perform (MakeDirs directory) (makedirs env directory).

Definition create_german_cv_docx {S} (env : environment)
           (profile_data : profile) (filename : str) : ST S str :=
  create_output_directory env (u "output") ;;;
  let filepath := path_join (u "output") filename in
  let doc := german_cv_document profile_data in
  perform (SaveDocx filepath doc) (docx_save env filepath doc) ;;;
  sret filepath.

Definition create_docx_profile {S} (env : environment)
           (profile_data : profile) : ST S str :=
  create_german_cv_docx env profile_data DEFAULT_DOCX_FILENAME.

(** [extract_text_from_pdf(pdf_file)], with [pdf_file.name] for the file. *)
Definition extract_text_from_pdf {S} (env : environment) (pdf_file : str)
  : ST S str :=
  lift (read_pdf_content (fitz_open env) pdf_file).

Definition no_text_warning : str :=
  [9888%N; 65039%N] ++ u " Kein Text gefunden im Lebenslauf.".

(** [pdf_file] is [None] when nothing was uploaded. *)
Definition handle_inputs (env : environment) (now : datetime)
           (text_input : str) (pdf_file : option str)
           (references certificates : str)
  : ST (option CVProcessor) (str * option str) :=
  text_input <- match pdf_file with
                | Some file => extract_text_from_pdf env file
                | None => sret text_input
                end ;;
  if not_ text_input || not_ (strip text_input) then
    sret (no_text_warning, None)
  else
    profile_data <- generate_profile_from_text env now text_input
                                               references certificates ;;
    let formatted_text := format_profile_text profile_data in
    docx_path <- create_docx_profile env profile_data ;;
    sret (formatted_text, Some docx_path).

End Process.

(* ================================================================== *)
(** * Notions for the properties of the whole program *)
(* ================================================================== *)

Module Notions.

Import Py Eff Config Models Utils Process.

(** [sub] occurs in [s] as it stands. *)
Definition substring (sub s : str) : Prop :=
  exists pre post, s = pre ++ sub ++ post.

(** The pipeline calls among the events of the core. *)
Definition is_call (ev : event) : bool :=
  match ev with
  | Stdout _ => false
  | CallNer _ | CallSummarizer _ _ _ _ => true
  end.

Definition calls (t : list event) : list event := filter is_call t.

(** Both pipelines are in place. *)
Definition loaded (self : CVProcessor) : Prop :=
  ner_pipeline self <> None /\ summarizer self <> None.

(** The global holds nothing, or a processor with both pipelines. *)
Definition global_ok (cv_processor : option CVProcessor) : Prop :=
  match cv_processor with
  | None => True
  | Some self => loaded self
  end.

(** Loading raises [e]: at the first pipeline, or at the second after the
    first was built. *)
Definition loading_raises (env : environment) (e : exception) : Prop :=
  pipeline_ner env NER_MODEL (device_index env) = Raised e
  \/ (exists ner,
        pipeline_ner env NER_MODEL (device_index env) = Returned ner
        /\ pipeline_summarization env SUMMARIZATION_MODEL (device_index env)
           = Raised e).

(** A processor is at hand: held by the global, or obtained by loading. *)
Definition ready (env : environment) (cv_processor : option CVProcessor)
  : Prop :=
  global_ok cv_processor
  /\ (cv_processor = None -> forall e, ~ loading_raises env e).

(** The part of a profile that the text and the document show. *)
Definition same_rendered (p q : profile) : Prop :=
  einkaufskurzprofil p = einkaufskurzprofil q
  /\ stundenverrechnungssatz p = stundenverrechnungssatz q
  /\ starttermin p = starttermin q
  /\ berufserfahrung p = berufserfahrung q
  /\ ausbildung p = ausbildung q
  /\ edv_kenntnisse p = edv_kenntnisse q
  /\ sonstige_techniken p = sonstige_techniken q
  /\ sprachkenntnisse p = sprachkenntnisse q
  /\ zusaetzliche_bemerkungen p = zusaetzliche_bemerkungen q.

(** The writes among the events of the process. *)
Definition is_write (ev : sys_event) : bool :=
  match ev with
  | MakeDirs _ | SaveDocx _ _ => true
  | Core _ | LoadPipeline _ _ _ => false
  end.

Definition writes (t : list sys_event) : list sys_event := filter is_write t.

(** Two environments with the same files and the same disk. *)
Definition same_files (env1 env2 : environment) : Prop :=
  fitz_open env1 = fitz_open env2
  /\ makedirs env1 = makedirs env2
  /\ docx_save env1 = docx_save env2.

(** The three components of a run. *)
Definition events_of {S A} (r : list sys_event * outcome A * S)
  : list sys_event := fst (fst r).
Definition outcome_of {S A} (r : list sys_event * outcome A * S)
  : outcome A := snd (fst r).
Definition state_of {S A} (r : list sys_event * outcome A * S) : S := snd r.

End Notions.

(** Environments for the worked examples. *)
Module ProcessFixtures.

Import Py Eff Config Models Utils Process Fixtures.

Definition two_page_pdf : pdf_document :=
  Returned [Returned (u "Erfahrung
2019 - 2021 Beispiel GmbH
"); Returned (u "
Studium Informatik")].

(** The second page cannot be read. *)
Definition damaged_pdf : pdf_document :=
  Returned [Returned (u "Erfahrung"); Raised (mkExc "RuntimeError" (u "bad page"));
            Returned (u "Studium")].

Definition files (path : str) : pdf_document :=
  if streq path (u "cv.pdf") then two_page_pdf
  else if streq path (u "damaged.pdf") then damaged_pdf
  else Raised (mkExc "FileNotFoundError" (u "no such file")).

Definition working_env : environment :=
  mkEnv false
        (fun _ _ => Returned (fun _ => Returned contact_entities))
        (fun _ _ => Returned prefix_summarizer)
        files
        (fun _ => Returned tt)
        (fun _ _ => Returned tt).

(** Other models: nothing recognized, summarization fails. *)
Definition other_models_env : environment :=
  mkEnv true
        (fun _ _ => Returned (fun _ => Returned []))
        (fun _ _ => Returned failing_summarizer)
        files
        (fun _ => Returned tt)
        (fun _ _ => Returned tt).

(** The summarization model cannot be fetched. *)
Definition offline_env : environment :=
  mkEnv false
        (fun _ _ => Returned (fun _ => Returned contact_entities))
        (fun _ _ => Raised (mkExc "OSError" (u "model not found")))
        files
        (fun _ => Returned tt)
        (fun _ _ => Returned tt).

End ProcessFixtures.

(* ================================================================== *)
(** * Properties of the runtime and of the matcher *)
(* ================================================================== *)

Module PyFacts.

Import Py.

Lemma lstrip_blank (s : str) : forallb isspace s = true -> lstrip s = [].
Proof.
  induction s as [|c s IH]; simpl; [reflexivity|].
  intros H. apply andb_true_iff in H. destruct H as [Hc Hs].
  rewrite Hc. auto.
Qed.

Lemma strip_blank (s : str) : forallb isspace s = true -> strip s = [].
Proof.
  intros H. unfold strip, rstrip. rewrite (lstrip_blank s H). reflexivity.
Qed.

Lemma lstrip_nil (s : str) : lstrip s = [] -> forallb isspace s = true.
Proof.
  induction s as [|c s IH]; cbn [lstrip forallb]; [reflexivity|].
  destruct (isspace c); [exact IH | discriminate].
Qed.

Lemma lstrip_head (s : str) (c : N) (rest : str) :
  lstrip s = c :: rest -> isspace c = false.
Proof.
  induction s as [|d s IH]; cbn [lstrip]; [discriminate|].
  destruct (isspace d) eqn:E; [exact IH|].
  intros [= <- _]. exact E.
Qed.

(** [strip] leaves nothing exactly of the texts made of whitespace. *)
Lemma strip_nil_iff (s : str) : strip s = [] <-> forallb isspace s = true.
Proof.
  split; [|apply strip_blank].
  unfold strip, rstrip. intros H.
  apply (f_equal (@rev N)) in H. rewrite rev_involutive in H. cbn [rev] in H.
  apply lstrip_nil in H.
  destruct (lstrip s) as [|c rest] eqn:E; [apply lstrip_nil; exact E|].
  apply lstrip_head in E.
  rewrite forallb_forall in H.
  rewrite (H c) in E; [discriminate|].
  apply in_rev. rewrite rev_involutive. left. reflexivity.
Qed.

Lemma contains_nil_r (sub : str) : contains sub [] = true -> sub = [].
Proof.
  destruct sub; simpl; [reflexivity | discriminate].
Qed.

Lemma contains_nonempty (c : N) (sub s : str) :
  contains (c :: sub) s = true -> s <> [].
Proof.
  intros H ->. apply contains_nil_r in H. discriminate.
Qed.

Lemma streq_true (a b : str) : streq a b = true <-> a = b.
Proof.
  unfold streq. destruct (list_eq_dec N.eq_dec a b); split; intros; congruence.
Qed.

Lemma not_true (s : str) : not_ s = true <-> s = [].
Proof.
  destruct s; simpl; split; intros; congruence.
Qed.

Lemma not_false (s : str) : not_ s = false <-> s <> [].
Proof.
  destruct s; simpl; split; intros; congruence.
Qed.

End PyFacts.

Module ReFacts.

Import Py Re.

(** A greedy repetition consumes a run of characters of its set, within
    its bounds. *)
Lemma repeat_greedy_sound cs s :
  forall lo hi k x,
    repeat_greedy cs lo hi s k = Some x ->
    exists w s',
      s = w ++ s' /\ lang (Repeat lo hi cs) w /\ k s' = Some x.
Proof.
  induction s as [|c s IH]; intros lo hi k x; cbn [repeat_greedy].
  - destruct lo; [|discriminate]. intros H.
    exists [], []. repeat split; [apply Nat.le_0_l | destruct hi; [apply Nat.le_0_l | exact I] | exact H].
  - assert (Hstop : match lo with O => k (c :: s) | S _ => None end = Some x ->
                    exists w s', c :: s = w ++ s' /\ lang (Repeat lo hi cs) w
                                 /\ k s' = Some x).
    { destruct lo; [|discriminate]. intros H.
      exists [], (c :: s). repeat split;
        [apply Nat.le_0_l | destruct hi; [apply Nat.le_0_l | exact I] | exact H]. }
    destruct (in_cset cs c) eqn:Ec; cbn [andb]; [|exact Hstop].
    destruct hi as [[|h]|]; [exact Hstop| |].
    + cbn [option_map Nat.pred].
      destruct (repeat_greedy cs (Nat.pred lo) (Some h) s k) as [y|] eqn:E;
        [|exact Hstop].
      intros [= <-]. apply IH in E. destruct E as (w & s' & -> & (Hw & Hlo & Hhi) & Hk).
      exists (c :: w), s'. cbn [lang forallb length app]. rewrite Ec, Hw.
      repeat split; [lia | lia | exact Hk].
    + cbn [option_map].
      destruct (repeat_greedy cs (Nat.pred lo) None s k) as [y|] eqn:E;
        [|exact Hstop].
      intros [= <-]. apply IH in E. destruct E as (w & s' & -> & (Hw & Hlo & Hhi) & Hk).
      exists (c :: w), s'. cbn [lang forallb length app]. rewrite Ec, Hw.
      repeat split; [lia | exact Hk].
Qed.

Lemma firstn_consumed (w s' : str) :
  firstn (length (w ++ s') - length s') (w ++ s') = w.
Proof.
  rewrite length_app, Nat.add_sub. 
  rewrite firstn_app, Nat.sub_diag, firstn_all. cbn. apply app_nil_r.
Qed.

Lemma group_other (g : groups) (i j : nat) (v : str) :
  i <> j -> group ((i, v) :: g) j = group g j.
Proof.
  intros H. cbn. destruct (Nat.eqb j i) eqn:E; [|reflexivity].
  apply Nat.eqb_eq in E. congruence.
Qed.

(** Soundness of the matcher: what it hands to its continuation is the
    input less a text of the pattern's language, and groups the pattern
    does not contain are as they were. *)
Lemma run_sound r :
  forall s g k x,
    run r s g k = Some x ->
    exists w s' g',
      s = w ++ s' /\ lang r w /\ k s' g' = Some x
      /\ (forall j, ~ In j (group_ids r) -> group g' j = group g j).
Proof.
  induction r as [|cs|lo hi cs|r1 IH1 r2 IH2|r1 IH1 r2 IH2|i r IH];
    intros s g k x; cbn [run].
  - intros H. exists [], s, g. repeat split; auto.
  - destruct s as [|c s]; [discriminate|].
    destruct (in_cset cs c) eqn:E; [|discriminate].
    intros H. exists [c], s, g.
    split; [reflexivity|]. split; [exists c; auto|]. split; auto.
  - intros H. apply repeat_greedy_sound in H.
    destruct H as (w & s' & -> & Hw & Hk). exists w, s', g.
    split; [reflexivity|]. split; [exact Hw|]. split; auto.
  - intros H. apply IH1 in H. destruct H as (w1 & s1 & g1 & -> & Hw1 & H & Hg1).
    apply IH2 in H. destruct H as (w2 & s2 & g2 & -> & Hw2 & H & Hg2).
    exists (w1 ++ w2), s2, g2. rewrite app_assoc. 
    split; [reflexivity|].
    split; [exists w1, w2; auto|]. split; [exact H|].
    intros j Hj. cbn in Hj. rewrite in_app_iff in Hj.
    rewrite Hg2, Hg1; auto.
  - destruct (run r1 s g k) as [y|] eqn:E.
    + intros [= <-]. apply IH1 in E.
      destruct E as (w & s' & g' & -> & Hw & H & Hg).
      exists w, s', g'.
      split; [reflexivity|]. split; [left; exact Hw|]. split; [exact H|].
      intros j Hj. apply Hg. cbn in Hj. rewrite in_app_iff in Hj. tauto.
    + intros H. apply IH2 in H.
      destruct H as (w & s' & g' & -> & Hw & H & Hg).
      exists w, s', g'.
      split; [reflexivity|]. split; [right; exact Hw|]. split; [exact H|].
      intros j Hj. apply Hg. cbn in Hj. rewrite in_app_iff in Hj. tauto.
  - intros H. apply IH in H. destruct H as (w & s' & g' & -> & Hw & H & Hg).
    rewrite firstn_consumed in H.
    exists w, s', ((i, w) :: g').
    split; [reflexivity|]. split; [exact Hw|]. split; [exact H|].
    intros j Hj. cbn in Hj. rewrite group_other by tauto. apply Hg. tauto.
Qed.

(** A capturing group binds the text its pattern matched. *)
Lemma run_group_sound i r s g k x :
  run (Group i r) s g k = Some x ->
  exists w s' g',
    s = w ++ s' /\ lang r w /\ k s' ((i, w) :: g') = Some x
    /\ (forall j, ~ In j (group_ids r) -> group g' j = group g j).
Proof.
  cbn [run]. intros H. apply run_sound in H.
  destruct H as (w & s' & g' & -> & Hw & H & Hg).
  rewrite firstn_consumed in H. eauto 10.
Qed.

Lemma group_here (g : groups) (i : nat) (v : str) :
  group ((i, v) :: g) i = v.
Proof. cbn. rewrite Nat.eqb_refl. reflexivity. Qed.

Lemma run_seq r1 r2 s g k :
  run (Seq r1 r2) s g k = run r1 s g (fun s' g' => run r2 s' g' k).
Proof. reflexivity. Qed.

(** A pattern of the form [(A) M (B)] with no further group: the match is
    what [A], [M] and [B] matched, one after the other, and the two groups
    hold the first and the last of them. *)
Lemma match_two_groups A M B s rest g :
  group_ids M = [] -> group_ids B = [] ->
  match_at (Seq (Group 1 A) (Seq M (Group 2 B))) s = Some (rest, g) ->
  exists mid,
    firstn (length s - length rest) s = group g 1 ++ mid ++ group g 2
    /\ lang A (group g 1) /\ lang M mid /\ lang B (group g 2).
Proof.
  intros HM HB. unfold match_at. rewrite run_seq. intros H.
  apply (run_group_sound 1 A) in H.
  destruct H as (a & s1 & g1 & -> & Ha & H & _).
  rewrite run_seq in H. apply run_sound in H.
  destruct H as (m & s2 & g2 & -> & Hm & H & Hg2).
  apply (run_group_sound 2 B) in H.
  destruct H as (b & s3 & g3 & -> & Hb & H & Hg3).
  injection H as <- <-.
  rewrite group_here.
  rewrite group_other by discriminate.
  rewrite Hg3 by (rewrite HB; auto).
  rewrite Hg2 by (rewrite HM; auto).
  rewrite group_here.
  exists m. split; [|auto].
  replace (a ++ m ++ b ++ s3) with ((a ++ m ++ b) ++ s3)
    by (rewrite <- !app_assoc; reflexivity).
  apply firstn_consumed.
Qed.

Lemma search_two_groups A M B s m :
  group_ids M = [] -> group_ids B = [] ->
  search (Seq (Group 1 A) (Seq M (Group 2 B))) s = Some m ->
  exists mid,
    m_text m = group (m_groups m) 1 ++ mid ++ group (m_groups m) 2
    /\ lang A (group (m_groups m) 1) /\ lang M mid
    /\ lang B (group (m_groups m) 2).
Proof.
  intros HM HB.
  induction s as [|c s IH]; cbn [search];
    destruct (match_at (Seq (Group 1 A) (Seq M (Group 2 B))) _)
      as [[rest g]|] eqn:E; try discriminate; try exact IH;
    intros [= <-]; cbn [m_text m_groups];
    exact (@match_two_groups A M B _ _ _ HM HB E).
Qed.

Lemma lang_lit (s w : str) : lang (lit s) w -> w = s.
Proof.
  revert w. induction s as [|c s IH]; intros w; cbn [lit].
  - auto.
  - destruct s as [|d s].
    + cbn. intros (x & -> & H). rewrite orb_false_r in H.
      apply N.eqb_eq in H. congruence.
    + cbn [lang]. intros (w1 & w2 & -> & (x & -> & H) & H2).
      cbn in H. rewrite orb_false_r in H. apply N.eqb_eq in H. subst x.
      apply IH in H2. rewrite H2. reflexivity.
Qed.

(** A pattern wrapped whole in group [i] captures its own match there. *)
Lemma match_at_group i r s rest g :
  match_at (Group i r) s = Some (rest, g) ->
  group g i = firstn (length s - length rest) s.
Proof.
  unfold match_at. intros H.
  apply run_group_sound in H.
  destruct H as (w & s' & g' & -> & _ & [= <- <-] & _).
  rewrite group_here, firstn_consumed. reflexivity.
Qed.

Lemma search_group i r s m :
  search (Group i r) s = Some m -> group (m_groups m) i = m_text m.
Proof.
  induction s as [|c s IH]; simpl.
  - destruct (match_at (Group i r) []) as [[rest g]|] eqn:E; [|discriminate].
    intros [= <-]. simpl. apply match_at_group in E. exact E.
  - destruct (match_at (Group i r) (c :: s)) as [[rest g]|] eqn:E.
    + intros [= <-]. cbn [m_groups m_text].
      apply match_at_group in E. exact E.
    + exact IH.
Qed.

(** What [re.search] returns is a text of the pattern's language. *)
Lemma match_at_sound r s rest g :
  match_at r s = Some (rest, g) ->
  lang r (firstn (length s - length rest) s).
Proof.
  unfold match_at. intros H. apply run_sound in H.
  destruct H as (w & s' & g' & -> & Hw & [= <- <-] & _).
  rewrite firstn_consumed. exact Hw.
Qed.

Lemma search_sound r s m : search r s = Some m -> lang r (m_text m).
Proof.
  induction s as [|c s IH]; cbn [search];
    destruct (match_at r _) as [[rest g]|] eqn:E;
    try discriminate; try exact IH;
    intros [= <-]; cbn [m_text]; apply (@match_at_sound _ _ _ _ E).
Qed.

(** The first item [findall] returns is the leftmost match. *)
Lemma hd_error_finditer r s : hd_error (finditer r s) = search r s.
Proof.
  unfold finditer.
  induction s as [|c s IH].
  - simpl. destruct (match_at r []) as [[rest g]|]; reflexivity.
  - cbn [scan search].
    destruct (match_at r (c :: s)) as [[rest g]|] eqn:E.
    + destruct (length (c :: s) - length rest)%nat; reflexivity.
    + simpl. exact IH.
Qed.

Lemma findall2_head r s :
  hd_error (findall2 r s) =
  option_map (fun m => (group (m_groups m) 1, group (m_groups m) 2))
             (search r s).
Proof.
  unfold findall2. rewrite <- hd_error_finditer.
  destruct (finditer r s); reflexivity.
Qed.

Lemma findall1_head r s :
  hd_error (findall1 r s) =
  option_map (fun m => group (m_groups m) 1) (search r s).
Proof.
  unfold findall1. rewrite <- hd_error_finditer.
  destruct (finditer r s); reflexivity.
Qed.

(** Deleting every character of a set. *)
Lemma sub_chars_empty cs s :
  sub (Chars cs) [] s = filter (fun c => negb (in_cset cs c)) s.
Proof.
  unfold sub.
  induction s as [|c s IH]; [reflexivity|].
  cbn [scan filter]. unfold match_at. cbn [run].
  destruct (in_cset cs c) eqn:E; cbn [negb].
  - replace (length (c :: s) - length s)%nat with 1%nat
      by (cbn [length]; lia).
    simpl. exact IH.
  - simpl. rewrite IH. reflexivity.
Qed.

End ReFacts.

(* ================================================================== *)
(** * Properties of models.py *)
(* ================================================================== *)

Module ModelsFacts.

Import Py PyFloat Re Eff Config Models Spec Fixtures PyFacts ReFacts.

(** ** Loops that append *)

(** A loop that appends at most one item per element builds the
    concatenation of the per-element contributions, in order. *)
Lemma fold_append {A B} (contrib : A -> list B) (l : list A) (acc : list B) :
  fold_left (fun acc x => acc ++ contrib x) l acc = acc ++ flat_map contrib l.
Proof.
  revert acc. induction l as [|x l IH]; intros acc; simpl.
  - symmetry. apply app_nil_r.
  - rewrite IH. rewrite app_assoc. reflexivity.
Qed.

Lemma fold_left_ext {A B} (f g : B -> A -> B) (l : list A) (acc : B) :
  (forall b a, f b a = g b a) -> fold_left f l acc = fold_left g l acc.
Proof.
  intros H. revert acc. induction l as [|x l IH]; intros acc; simpl.
  - reflexivity.
  - rewrite H. apply IH.
Qed.

Lemma flat_map_filter {A B} (p : A -> bool) (f : A -> B) (l : list A) :
  flat_map (fun x => if p x then [f x] else []) l = map f (filter p l).
Proof.
  induction l as [|x l IH]; simpl; [reflexivity|].
  destruct (p x); simpl; rewrite IH; reflexivity.
Qed.

Lemma length_flat_map_filter {A B} (p : A -> bool) (contrib : A -> list B)
      (l : list A) :
  (forall x, length (contrib x) = if p x then 1%nat else 0%nat) ->
  length (flat_map contrib l) = length (filter p l).
Proof.
  intros H. induction l as [|x l IH]; simpl; [reflexivity|].
  rewrite length_app, H, IH. destruct (p x); reflexivity.
Qed.

(** ** extract_work_experience *)

Lemma experience_step (experiences : list Experience.t) (section : str) :
  (if any_keyword experience_keywords section then
     match findall2 experience_date_pattern section,
           findall1 company_pattern section with
     | d0 :: _, c0 :: _ =>
         experiences ++ [Experience.mk (format_period d0) c0 (strip section)]
     | _, _ => experiences
     end
   else experiences)
  = experiences ++ experience_entries section.
Proof.
  unfold experience_entries, first_date_range, first_organization.
  destruct (any_keyword experience_keywords section);
    [|symmetry; apply app_nil_r].
  pose proof (findall2_head experience_date_pattern section) as Hd.
  pose proof (findall1_head company_pattern section) as Hc.
  destruct (search experience_date_pattern section) as [md|] eqn:Ed;
    destruct (findall2 experience_date_pattern section) as [|d0 ds];
    simpl in Hd; try discriminate; try (symmetry; apply app_nil_r).
  injection Hd as ->.
  destruct (search company_pattern section) as [mc|] eqn:Ec;
    destruct (findall1 company_pattern section) as [|c0 cs];
    simpl in Hc; try discriminate; try (symmetry; apply app_nil_r).
  injection Hc as ->.
  unfold company_pattern in Ec. apply search_group in Ec.
  simpl. rewrite Ec. reflexivity.
Qed.

Lemma organization_suffix (block company : str) :
  first_organization block = Some company ->
  ends_with_legal_suffix company.
Proof.
  unfold first_organization.
  destruct (search company_pattern block) as [m|] eqn:E; [|discriminate].
  intros [= <-]. apply search_sound in E.
  unfold company_pattern in E. cbn [lang] in E.
  destruct E as (w1 & w2 & -> & _ & w3 & w4 & -> & _ & Hs).
  exists (w1 ++ w3), w4. split; [apply app_assoc|].
  unfold legal_suffixes.
  repeat (destruct Hs as [Hs|Hs]; [apply lang_lit in Hs; rewrite Hs; cbn [In]; tauto|]).
  apply lang_lit in Hs. rewrite Hs. cbn [In]. tauto.
Qed.

(** C3.  [extract_work_experience] returns, in the order of the
    blank-line-delimited blocks, exactly one entry for each block that has
    an experience keyword (case-insensitively), a date-range match and a
    legal-suffix organization match, and nothing for any other block.  The
    entry's period is the first date-range match with its two sides joined
    by [" - "], its company is the first organization match (a text that
    ends in a legal suffix), and its description is the trimmed block. *)
Theorem extract_work_experience_blocks (text : str) :
  extract_work_experience text = flat_map experience_entries (blocks text)
  /\ length (extract_work_experience text)
     = length (filter is_experience_block (blocks text))
  /\ Forall (fun e => ends_with_legal_suffix (Experience.company e))
            (extract_work_experience text).
Proof.
  assert (E : extract_work_experience text
              = flat_map experience_entries (blocks text)).
  { unfold extract_work_experience, blocks.
    rewrite (fold_left_ext _
               (fun acc section => acc ++ experience_entries section)).
    - exact (fold_append experience_entries _ []).
    - intros acc section. apply experience_step. }
  split; [exact E|]. split.
  - rewrite E. apply length_flat_map_filter.
    intros block. unfold experience_entries, is_experience_block.
    destruct (any_keyword experience_keywords block); [|reflexivity].
    destruct (first_date_range experience_date_pattern block);
      [|reflexivity].
    destruct (first_organization block); reflexivity.
  - rewrite E. apply Forall_forall. intros e He.
    apply in_flat_map in He. destruct He as (block & _ & He).
    unfold experience_entries in He.
    destruct (any_keyword experience_keywords block); [|contradiction].
    destruct (first_date_range experience_date_pattern block);
      [|contradiction].
    destruct (first_organization block) as [company|] eqn:Ec;
      [|contradiction].
    destruct He as [<-|[]]. cbn [Experience.company].
    exact (@organization_suffix block company Ec).
Qed.

(** ** extract_education *)

Lemma education_step (education : list Education.t) (section : str) :
  (if any_keyword education_keywords section then
     education ++
       [Education.mk
          (match findall2 education_date_pattern section with
           | d0 :: _ => format_period d0
           | [] => []
           end)
          [] [] (strip section)]
   else education)
  = education ++ education_entries section.
Proof.
  unfold education_entries, is_education_block, first_date_range.
  destruct (any_keyword education_keywords section);
    [|symmetry; apply app_nil_r].
  pose proof (findall2_head education_date_pattern section) as Hd.
  destruct (search education_date_pattern section) as [md|];
    destruct (findall2 education_date_pattern section) as [|d0 ds];
    simpl in Hd; try discriminate; [|reflexivity].
  injection Hd as ->. reflexivity.
Qed.

Lemma lang_digits_4 (w : str) : lang (digits 4 4) w -> is_year w.
Proof.
  unfold digits, is_year. cbn [lang]. intros (H & Hlo & Hhi).
  split; [lia|].
  rewrite <- H. clear. induction w as [|c w IH]; [reflexivity|].
  cbn [forallb in_cset existsb citem_matches].
  rewrite IH, orb_false_r. reflexivity.
Qed.

Lemma education_period_shape (block : str) (d : str * str) :
  first_date_range education_date_pattern block = Some d ->
  year_period (joined (Some d)).
Proof.
  unfold first_date_range, education_date_pattern.
  destruct (search _ block) as [m|] eqn:E; [|discriminate].
  intros [= <-].
  apply search_two_groups in E; [|reflexivity|reflexivity].
  destruct E as (mid & _ & Ha & _ & Hb).
  exists (group (m_groups m) 1), (group (m_groups m) 2).
  split; [reflexivity|]. split; [apply lang_digits_4; exact Ha|].
  destruct Hb as [Hb|[Hb|Hb]].
  - left. apply lang_digits_4. exact Hb.
  - right. left. apply lang_lit. exact Hb.
  - right. right. apply lang_lit. exact Hb.
Qed.

(** C4.  [extract_education] returns, in the order of the
    blank-line-delimited blocks, exactly one entry for every block that has
    an education keyword (case-insensitively), whether or not a date is
    found.  The entry's period is the first match of the education date
    pattern joined by [" - "], or the empty string without a match; the
    pattern takes four-digit years only (and the words for an open end on
    the right), never the month/year form.  The institution is always the
    empty string. *)
Theorem extract_education_blocks (text : str) :
  extract_education text = flat_map education_entries (blocks text)
  /\ length (extract_education text)
     = length (filter is_education_block (blocks text))
  /\ Forall (fun e => Education.institution e = []
                      /\ (Education.period e = []
                          \/ year_period (Education.period e)))
            (extract_education text).
Proof.
  assert (E : extract_education text
              = flat_map education_entries (blocks text)).
  { unfold extract_education, blocks.
    rewrite (fold_left_ext _
               (fun acc section => acc ++ education_entries section)).
    - exact (fold_append education_entries _ []).
    - intros acc section. apply education_step. }
  split; [exact E|]. split.
  - rewrite E. apply length_flat_map_filter.
    intros block. unfold education_entries.
    destruct (is_education_block block); reflexivity.
  - rewrite E. apply Forall_forall. intros e He.
    apply in_flat_map in He. destruct He as (block & _ & He).
    unfold education_entries in He.
    destruct (is_education_block block); [|contradiction].
    destruct He as [<-|[]]. cbn [Education.institution Education.period].
    split; [reflexivity|].
    destruct (first_date_range education_date_pattern block) as [d|] eqn:Ed.
    + right. exact (@education_period_shape block d Ed).
    + left. reflexivity.
Qed.

(** The examples of the specification: a block with keyword, date range
    and organization gives one entry; without a legal suffix, none. *)
Example experience_of_sample_block :
  extract_work_experience (u "Erfahrung
2019 - 2021 Beispiel GmbH")
  = [Experience.mk (u "2019 - 2021") (u "Beispiel GmbH")
                   (u "Erfahrung
2019 - 2021 Beispiel GmbH")]
  /\ extract_work_experience (u "Erfahrung
2019 - 2021 Beispiel und Partner") = [].
Proof. split; vm_compute; reflexivity. Qed.

(** An education block without a date still gives its entry; the
    month/year form, which the experience pattern takes, is not a period
    for the education pattern. *)
Example education_of_sample_blocks :
  extract_education (u "Studium Informatik")
  = [Education.mk [] [] [] (u "Studium Informatik")]
  /\ extract_education (u "Studium 03/2019 - 05/2021")
     = [Education.mk [] [] [] (u "Studium 03/2019 - 05/2021")]
  /\ first_date_range experience_date_pattern (u "Studium 03/2019 - 05/2021")
     = Some (u "03/2019", u "05/2021")
  /\ extract_education (u "Ausbildung 2010-heute

Hobbys

Abschluss 2009 – 2010")
     = [Education.mk (u "2010 - heute") [] [] (u "Ausbildung 2010-heute");
        Education.mk (u "2009 - 2010") [] [] (u "Abschluss 2009 – 2010")].
Proof. repeat split; vm_compute; reflexivity. Qed.

(** ** extract_skills *)

Lemma collect_skills_filter (vocabulary : list str) (text : str) :
  collect_skills vocabulary (lower text)
  = filter (term_occurs text) vocabulary.
Proof.
  unfold collect_skills.
  rewrite (fold_left_ext _
             (fun acc skill =>
                acc ++ (if term_occurs text skill then [skill] else []))).
  - rewrite (fold_append
               (fun skill => if term_occurs text skill then [skill] else [])
               vocabulary []).
    simpl. rewrite (flat_map_filter (term_occurs text) (fun x => x)).
    apply map_id.
  - intros acc skill. unfold term_occurs.
    destruct (contains (lower skill) (lower text));
      [reflexivity | symmetry; apply app_nil_r].
Qed.

Lemma filter_matches_vocabulary (vocabulary : list str) (text : str) :
  NoDup vocabulary ->
  matches_vocabulary vocabulary (filter (term_occurs text) vocabulary) text.
Proof.
  intros Hnd. split; [reflexivity|]. split.
  - intros term. apply filter_In.
  - apply NoDup_filter. exact Hnd.
Qed.

Ltac distinct_literals :=
  repeat (constructor; [simpl; intuition discriminate|]); constructor.

Lemma NoDup_it_skills : NoDup it_skills.
Proof. vm_compute. distinct_literals. Qed.

Lemma NoDup_technical_skills : NoDup technical_skills.
Proof. vm_compute. distinct_literals. Qed.

Lemma NoDup_languages : NoDup languages.
Proof. vm_compute. distinct_literals. Qed.

(** C5.  For each of the three fixed vocabularies, [extract_skills] puts a
    term in the category's result if and only if the lowercased term is a
    substring of the lowercased text (no word boundary is looked at); each
    result has no duplicates, holds only vocabulary terms and lists them in
    the vocabulary's order. *)
Theorem extract_skills_vocabularies (text : str) :
  matches_vocabulary it_skills
                     (Skills.edv_kenntnisse (extract_skills text)) text
  /\ matches_vocabulary technical_skills
                        (Skills.sonstige_techniken (extract_skills text)) text
  /\ matches_vocabulary languages
                        (Skills.sprachkenntnisse (extract_skills text)) text.
Proof.
  unfold extract_skills. cbn [Skills.edv_kenntnisse Skills.sonstige_techniken
                              Skills.sprachkenntnisse].
  rewrite !collect_skills_filter.
  split; [|split]; apply filter_matches_vocabulary.
  - exact NoDup_it_skills.
  - exact NoDup_technical_skills.
  - exact NoDup_languages.
Qed.

(** The example of the specification, and a term found inside a longer
    word. *)
Example skills_of_sample :
  extract_skills (u "Ich nutze SAP und Python bei Projektmanagement, SAP!")
  = Skills.mk [u "SAP"; u "Python"] [u "Projektmanagement"] []
  /\ Skills.edv_kenntnisse (extract_skills (u "SAPPHIRE")) = [u "SAP"].
Proof. split; vm_compute; reflexivity. Qed.

(** ** summarize_text *)




(** The pipeline receives 1024 of the 2000 characters. *)
Example long_text_is_cut :
  length long_text = 2000%nat
  /\ trace (summarize_text mock_processor long_text)
     = [CallSummarizer (repeat 97%N 1024) 150 40 false].
Proof. split; vm_compute; reflexivity. Qed.

(** ** extract_candidate_data: blank input *)

(** C2.  On empty or whitespace-only input [extract_candidate_data]
    returns the empty template, in which every collection is empty and
    every string is empty except the hourly rate, which is ["€"]; neither
    pipeline is called (nothing is logged) and nothing is raised, whether or
    not the pipelines are loaded. *)
Theorem blank_input_gives_empty_template
        (self : CVProcessor) (now : datetime) (raw_text : str)
        (Hblank : forallb isspace raw_text = true) :
  extract_candidate_data self now raw_text = ([], Returned _get_empty_template)
  /\ job_title _get_empty_template = []
  /\ einkaufskurzprofil _get_empty_template = []
  /\ stundenverrechnungssatz _get_empty_template = u "€"
  /\ starttermin _get_empty_template = []
  /\ name _get_empty_template = []
  /\ email _get_empty_template = []
  /\ phone _get_empty_template = []
  /\ berufserfahrung _get_empty_template = []
  /\ ausbildung _get_empty_template = []
  /\ edv_kenntnisse _get_empty_template = []
  /\ sonstige_techniken _get_empty_template = []
  /\ sprachkenntnisse _get_empty_template = []
  /\ summary _get_empty_template = []
  /\ zusaetzliche_bemerkungen _get_empty_template = [].
Proof.
  split.
  - unfold extract_candidate_data.
    rewrite (strip_blank raw_text Hblank). cbn [not_].
    rewrite orb_true_r. reflexivity.
  - repeat split.
Qed.

Lemma blank_input_gives_empty_template_witness :
  extract_candidate_data unloaded_processor today whitespace_only
  = ([], Returned _get_empty_template).
Proof.
  assert (Hblank : forallb isspace whitespace_only = true)
    by (vm_compute; reflexivity).
  destruct (@blank_input_gives_empty_template
              unloaded_processor today whitespace_only Hblank) as [H _].
  exact H.
Defined.

(** ** _is_phone_number *)

Lemma in_separator (c : N) :
  in_cset [CChr (chr "-"); CSpace; CChr (chr "("); CChr (chr ")")] c
  = is_separator c.
Proof.
  unfold in_cset, is_separator. cbn [existsb citem_matches].
  rewrite orb_false_r, !orb_assoc.
  rewrite (N.eqb_sym (chr "-")), (N.eqb_sym (chr "(")), (N.eqb_sym (chr ")")).
  reflexivity.
Qed.

Lemma clean_text_filter (text : str) :
  sub separator [] text = filter (fun c => negb (is_separator c)) text.
Proof.
  unfold separator. rewrite sub_chars_empty.
  apply filter_ext. intros c. rewrite in_separator. reflexivity.
Qed.

Ltac enumerate_between x lo hi :=
  let rec go k fuel :=
    lazymatch fuel with
    | O => exfalso; lia
    | S ?fuel' =>
        let E := fresh "E" in
        destruct (Z.eq_dec x k) as [E|E];
        [subst x | go constr:((k + 1)%Z) fuel']
    end in
  go lo hi.

(** For the lengths that pass the range test, comparing the digit count
    with the double [n * 0.7] decides [10 * d >= 7 * n]: the product is
    exact at [n = 10], and elsewhere the rounding error stays far from the
    nearest integer. *)
Lemma float_threshold (n d : Z) :
  (7 <= n <= 15)%Z -> (0 <= d <= n)%Z ->
  int_ge_float d (PrimFloat.mul (float_of_int n) float_0_7)
  = (7 * n <=? 10 * d)%Z.
Proof.
  intros Hn Hd.
  assert (Hd' : (0 <= d <= 15)%Z) by lia. clear Hd.
  enumerate_between n 7%Z 10%nat;
    enumerate_between d 0%Z 17%nat; vm_compute; reflexivity.
Qed.

Lemma is_phone_number_shape (text : str) :
  _is_phone_number text = phone_shape text.
Proof.
  unfold _is_phone_number, phone_shape, count_digits.
  rewrite clean_text_filter.
  set (clean := filter (fun c => negb (is_separator c)) text).
  set (n := Z.of_nat (length clean)).
  set (d := Z.of_nat (length (filter isdigit clean))).
  assert (Hd : (0 <= d <= n)%Z).
  { unfold d, n. pose proof (filter_length_le isdigit clean). lia. }
  destruct (7 <=? n)%Z eqn:E7; [|reflexivity].
  destruct (n <=? 15)%Z eqn:E15; [|reflexivity].
  apply Z.leb_le in E7. apply Z.leb_le in E15.
  simpl. apply float_threshold; lia.
Qed.

(** ** Identity resolution *)

Lemma resolve_step_cases (st : identity) (e : entity) :
  resolve_step st e =
  if is_person e && not_ (id_name st) then
    mkIdentity (text_of e) (id_email st) (id_phone st)
  else if is_email_candidate e && not_ (id_email st) then
    mkIdentity (id_name st) (text_of e) (id_phone st)
  else if is_phone_candidate e && not_ (id_phone st) then
    mkIdentity (id_name st) (id_email st) (text_of e)
  else st.
Proof.
  unfold resolve_step, is_email_candidate, is_phone_candidate, is_person,
    is_misc, text_of, tag_of.
  rewrite is_phone_number_shape. reflexivity.
Qed.

Lemma person_not_misc (e : entity) : is_person e = true -> is_misc e = false.
Proof.
  unfold is_person, is_misc. intros H. apply streq_true in H. rewrite H.
  reflexivity.
Qed.

Lemma email_candidate_text (e : entity) :
  is_email_candidate e = true -> not_ (text_of e) = false.
Proof.
  unfold is_email_candidate. intros H. apply andb_true_iff in H.
  destruct H as [_ H]. apply not_false.
  change (u "@") with [64%N] in H. eapply contains_nonempty. exact H.
Qed.

Lemma phone_shape_text (text : str) :
  phone_shape text = true -> not_ text = false.
Proof.
  destruct text; [|reflexivity]. vm_compute. discriminate.
Qed.

Lemma phone_candidate_text (e : entity) :
  is_phone_candidate e = true -> not_ (text_of e) = false.
Proof.
  unfold is_phone_candidate. intros H. apply andb_true_iff in H.
  destruct H as [_ H]. apply phone_shape_text. exact H.
Qed.

Lemma candidate_tags (e : entity) :
  is_person e = true ->
  is_email_candidate e = false /\ is_phone_candidate e = false.
Proof.
  intros H. unfold is_email_candidate, is_phone_candidate.
  rewrite (person_not_misc e H). split; reflexivity.
Qed.

Lemma first_text_cons (P : entity -> bool) (e : entity) (l : list entity) :
  first_text P (e :: l) = if P e then text_of e else first_text P l.
Proof.
  unfold first_text. cbn [find]. destruct (P e); reflexivity.
Qed.

Lemma name_candidate_unfold (e : entity) :
  is_name_candidate e = is_person e && negb (not_ (text_of e)).
Proof. reflexivity. Qed.

Ltac use_equations :=
  repeat match goal with
         | H : ?b = true |- context [?b] => rewrite H
         | H : ?b = false |- context [?b] => rewrite H
         end.

Ltac crunch :=
  repeat (progress
            (cbn [andb negb id_name id_email id_phone remove_first];
             rewrite ?first_text_cons, ?name_candidate_unfold;
             use_equations)).

(** The loop from an arbitrary state: each field that is already set
    stays, each unset field takes the first candidate ahead; the entity
    that becomes the email is passed over for the phone. *)
Lemma resolve_from (entities : list entity) :
  forall st,
    fold_left resolve_step entities st =
    mkIdentity
      (if not_ (id_name st) then first_text is_name_candidate entities
       else id_name st)
      (if not_ (id_email st) then first_text is_email_candidate entities
       else id_email st)
      (if not_ (id_phone st) then
         first_text is_phone_candidate
                    (if not_ (id_email st)
                     then remove_first is_email_candidate entities
                     else entities)
       else id_phone st).
Proof.
  induction entities as [|e l IH]; intros [n m p].
  - destruct n, m, p; reflexivity.
  - cbn [fold_left]. rewrite IH, resolve_step_cases.
    pose proof (email_candidate_text e) as Hm.
    pose proof (phone_candidate_text e) as Hph.
    pose proof (candidate_tags e) as Hp.
    destruct (is_person e) eqn:Ep, (is_email_candidate e) eqn:Em,
      (is_phone_candidate e) eqn:Eph, (not_ (text_of e)) eqn:Et;
      try (destruct (Hp eq_refl); discriminate);
      try (specialize (Hm eq_refl); discriminate);
      try (specialize (Hph eq_refl); discriminate);
      clear Hm Hph Hp;
      destruct (not_ n) eqn:En, (not_ m) eqn:Emm, (not_ p) eqn:Epp;
      crunch; reflexivity.
Qed.

Lemma resolve_identity_snoc (earlier : list entity) (e : entity) :
  resolve_identity (earlier ++ [e])
  = resolve_step (resolve_identity earlier) e.
Proof.
  unfold resolve_identity. rewrite fold_left_app. reflexivity.
Qed.

(** C6 (as amended).  The loop over the recognizer's output selects three
    first matches: the name is the text of the first person-tagged entity
    whose text is not empty, the email that of the first
    miscellaneous-tagged entity containing ["@"], the phone that of the
    first miscellaneous-tagged entity of phone shape other than the entity
    taken as email; a field without a candidate stays empty.  A field that
    has been set is not changed by any entity that follows. *)
Theorem resolve_identity_first_candidates (entities later : list entity) :
  resolve_identity entities = resolve_identity_amended entities
  /\ (id_name (resolve_identity entities) <> [] ->
      id_name (resolve_identity (entities ++ later))
      = id_name (resolve_identity entities))
  /\ (id_email (resolve_identity entities) <> [] ->
      id_email (resolve_identity (entities ++ later))
      = id_email (resolve_identity entities))
  /\ (id_phone (resolve_identity entities) <> [] ->
      id_phone (resolve_identity (entities ++ later))
      = id_phone (resolve_identity entities)).
Proof.
  split.
  - unfold resolve_identity. rewrite resolve_from. reflexivity.
  - unfold resolve_identity at 2 5 8. rewrite fold_left_app.
    fold (resolve_identity entities). rewrite resolve_from.
    cbn [id_name id_email id_phone].
    repeat split; intros H; apply not_false in H; rewrite H; reflexivity.
Qed.

(** C6, as stated, on a token that contains ["@"] and has the shape of a
    phone number: the stated rule selects it as phone, the loop has used it
    as email and selects the next candidate.  And on a person entity with
    empty text: the stated rule stops at it, the loop goes on to the next
    person. *)
Lemma stated_identity_differs :
  id_phone (resolve_identity_stated ambiguous_entities) = u "1234567@"
  /\ id_phone (resolve_identity ambiguous_entities) = u "7654321"
  /\ resolve_identity ambiguous_entities
     <> resolve_identity_stated ambiguous_entities
  /\ id_name (resolve_identity_stated nameless_first) = []
  /\ id_name (resolve_identity nameless_first) = u "Max Mustermann".
Proof.
  split; [vm_compute; reflexivity|].
  split; [vm_compute; reflexivity|].
  split; [vm_compute; discriminate|].
  split; vm_compute; reflexivity.
Qed.

(** The contact example of the specification: a later person entity does
    not replace the name. *)
Example identity_of_contact_entities :
  resolve_identity contact_entities
  = mkIdentity (u "Max Mustermann") (u "max@firma.de") (u "+49 176 1234567").
Proof. vm_compute. reflexivity. Qed.

(** C10.  For a miscellaneous-tagged entity whose text contains ["@"]:
    while the email is unset the entity becomes the email and the phone is
    left as it was, whether or not the text has the shape of a phone
    number; and if the entity is taken as phone, the email had been set by
    an earlier entity. *)
Theorem email_checked_before_phone
        (earlier : list entity) (e : entity)
        (Hmisc : get (entity_group e) [] = u "MISC")
        (Hat : contains (u "@") (get (word e) []) = true) :
  let st := resolve_identity earlier in
  let st' := resolve_identity (earlier ++ [e]) in
  (id_email st = [] ->
   st' = mkIdentity (id_name st) (get (word e) []) (id_phone st))
  /\ (id_phone st' <> id_phone st ->
      id_email st <> [] /\ id_email st' = id_email st
      /\ id_phone st' = get (word e) []
      /\ _is_phone_number (get (word e) []) = true).
Proof.
  intros st st'. unfold st'. rewrite resolve_identity_snoc. fold st.
  unfold resolve_step. rewrite Hmisc, Hat.
  change (streq (u "MISC") (u "PER")) with false.
  change (streq (u "MISC") (u "MISC")) with true.
  cbn [andb]. split.
  - intros H. rewrite H. reflexivity.
  - destruct (not_ (id_email st)) eqn:Ee.
    + cbn [id_phone]. intros H. congruence.
    + apply not_false in Ee.
      destruct (_is_phone_number (get (word e) []) && not_ (id_phone st))
        eqn:Ep.
      * intros _. apply andb_true_iff in Ep. destruct Ep as [Ep _].
        cbn [id_email id_phone]. auto.
      * intros H. congruence.
Qed.

Lemma email_checked_before_phone_witness :
  resolve_identity ([] ++ [ent "MISC" "1234567@"])
  = mkIdentity [] (u "1234567@") []
  /\ id_email (resolve_identity [ent "MISC" "a@b.de"]) <> [].
Proof.
  split.
  - apply (email_checked_before_phone [] (ent "MISC" "1234567@"));
      reflexivity.
  - apply (email_checked_before_phone
             [ent "MISC" "a@b.de"] (ent "MISC" "1234567@"));
      [reflexivity | reflexivity | vm_compute; discriminate].
Defined.

Lemma resolve_identity_first_candidates_witness :
  id_name (resolve_identity (contact_entities ++ [ent "PER" "Hans Beispiel"]))
  = id_name (resolve_identity contact_entities).
Proof.
  apply (resolve_identity_first_candidates
           contact_entities [ent "PER" "Hans Beispiel"]).
  vm_compute. discriminate.
Defined.

(** ** extract_candidate_data: the full path *)

(** The test that sends an input to the empty template is true exactly
    of the empty and the whitespace-only texts. *)
Lemma blank_iff_whitespace (raw_text : str) :
  blank raw_text = true <-> forallb isspace raw_text = true.
Proof.
  unfold blank. rewrite orb_true_iff, !not_true, strip_nil_iff.
  split; [|auto]. intros [->|H]; [reflexivity | exact H].
Qed.

Lemma extract_candidate_data_full (self : CVProcessor) (now : datetime)
      (raw_text : str) :
  blank raw_text = false ->
  extract_candidate_data self now raw_text
  = bind (extract_entities self raw_text)
         (fun ner_results =>
            bind (summarize_text self raw_text)
                 (fun summary =>
                    ret (full_profile now raw_text ner_results summary))).
Proof.
  unfold blank, extract_candidate_data. intros ->. reflexivity.
Qed.

Lemma extract_candidate_data_blank (self : CVProcessor) (now : datetime)
      (raw_text : str) :
  blank raw_text = true ->
  extract_candidate_data self now raw_text = ret _get_empty_template.
Proof.
  unfold blank, extract_candidate_data. intros ->. reflexivity.
Qed.





Lemma result_bind_returned {A B} (t : list event) (a : A) (f : A -> M B) :
  result (bind (t, Returned a) f) = result (f a).
Proof. unfold bind, result. destruct (f a). reflexivity. Qed.




(** A recognizer that raises and one that finds nothing give the caller
    the same outcome; only the log tells them apart. *)
Example error_and_silence_look_alike :
  result (extract_candidate_data erroring_ner_processor today sample_cv)
  = result (extract_candidate_data silent_ner_processor today sample_cv)
  /\ trace (extract_candidate_data erroring_ner_processor today sample_cv)
     = [CallNer sample_cv;
        Stdout (u "Error in entity extraction: inference failed");
        CallSummarizer sample_cv 150 40 false]
  /\ trace (extract_candidate_data silent_ner_processor today sample_cv)
     = [CallNer sample_cv; CallSummarizer sample_cv 150 40 false].
Proof. repeat split; vm_compute; reflexivity. Qed.


End ModelsFacts.

(* ================================================================== *)
(** * Properties of the assembled profile and of app.py *)
(* ================================================================== *)

Module AppFacts.

Import Py PyFloat Re Eff Config Models App Spec Fixtures.
Import PyFacts ReFacts ModelsFacts.

Ltac split_all := repeat (split; [reflexivity|]); try reflexivity.

Lemma result_inv {A} (m : M A) (a : A) :
  result m = Returned a -> exists t, m = (t, Returned a).
Proof. destruct m as [t o]. simpl. intros ->. eauto. Qed.

Lemma result_bind_inv {A B} (m : M A) (f : A -> M B) (b : B) :
  result (bind m f) = Returned b ->
  exists t a, m = (t, Returned a) /\ result (f a) = Returned b.
Proof.
  destruct m as [t [a|e]]; simpl.
  - intros H. exists t, a. split; [reflexivity|].
    destruct (f a). exact H.
  - discriminate.
Qed.

Lemma full_path_profile self now raw_text p :
  blank raw_text = false ->
  result (extract_candidate_data self now raw_text) = Returned p ->
  exists ner_results summary,
    p = full_profile now raw_text ner_results summary.
Proof.
  intros Hfull. rewrite (@extract_candidate_data_full self now raw_text Hfull).
  intros H. apply result_bind_inv in H. destruct H as (t & ner & _ & H).
  apply result_bind_inv in H. destruct H as (t' & s & _ & H).
  injection H as <-. eauto.
Qed.

Lemma blank_path_profile self now raw_text p :
  blank raw_text = true ->
  result (extract_candidate_data self now raw_text) = Returned p ->
  p = _get_empty_template.
Proof.
  intros Hb. rewrite (@extract_candidate_data_blank self now raw_text Hb).
  intros [= <-]. reflexivity.
Qed.

(** C8 (as amended).  On input that takes the full path,
    [extract_candidate_data] itself sets the four header fields, to
    literals equal to [DEFAULT_JOB_TITLE], [DEFAULT_EKP], [DEFAULT_SVS] and
    [DEFAULT_START_DATE]; the defaulting step of
    [generate_profile_from_text] then changes none of them.  Only the empty
    template returned on blank input leaves job title, procurement profile
    and start date empty (the hourly rate is ["€"] there too), and only
    for it does the defaulting step supply the defaults. *)
Theorem header_set_by_core
        (self : CVProcessor) (now : datetime)
        (raw_text references certificates : str) (p : profile)
        (Hret : result (extract_candidate_data self now raw_text)
                = Returned p) :
  (blank raw_text = false -> header_defaults p)
  /\ (blank raw_text = true ->
      job_title p = [] /\ einkaufskurzprofil p = []
      /\ stundenverrechnungssatz p = DEFAULT_SVS /\ starttermin p = [])
  /\ (exists q,
         result (generate_profile_from_text self now raw_text
                                            references certificates)
         = Returned q
         /\ header_defaults q
         /\ (blank raw_text = false ->
             job_title q = job_title p
             /\ einkaufskurzprofil q = einkaufskurzprofil p
             /\ stundenverrechnungssatz q = stundenverrechnungssatz p
             /\ starttermin q = starttermin p)).
Proof.
  assert (Hhead : (blank raw_text = false -> header_defaults p)
                  /\ (blank raw_text = true -> p = _get_empty_template)).
  { split; intros Hb.
    - destruct (@full_path_profile self now raw_text p Hb Hret)
        as (ner & s & ->).
      unfold header_defaults, full_profile, DEFAULT_JOB_TITLE, DEFAULT_EKP,
        DEFAULT_SVS, DEFAULT_START_DATE.
      cbn [job_title einkaufskurzprofil stundenverrechnungssatz starttermin].
      split_all.
    - exact (@blank_path_profile self now raw_text p Hb Hret). }
  destruct Hhead as [Hfull Hblank].
  split; [exact Hfull|]. split.
  - intros Hb. rewrite (Hblank Hb). unfold _get_empty_template, DEFAULT_SVS.
    cbn [job_title einkaufskurzprofil stundenverrechnungssatz starttermin].
    split_all.
  - unfold generate_profile_from_text.
    apply result_inv in Hret. destruct Hret as [t ->].
    rewrite result_bind_returned. unfold ret, result. cbn [snd].
    eexists. split; [reflexivity|].
    destruct (blank raw_text) eqn:Hb.
    + rewrite (Hblank eq_refl). unfold header_defaults, _get_empty_template.
      cbn [job_title einkaufskurzprofil stundenverrechnungssatz starttermin].
      split; [split_all | discriminate].
    + destruct (Hfull eq_refl) as (H1 & H2 & H3 & H4).
      unfold header_defaults.
      cbn [job_title einkaufskurzprofil stundenverrechnungssatz starttermin].
      rewrite H1, H2, H3, H4.
      split; [split_all | intros _; split_all].
Qed.

Lemma header_set_by_core_witness :
  exists p,
    result (extract_candidate_data mock_processor today sample_cv) = Returned p
    /\ header_defaults p.
Proof.
  assert (Hfull : blank sample_cv = false) by (vm_compute; reflexivity).
  assert (Hret : result (extract_candidate_data mock_processor today sample_cv)
                 = Returned (full_profile today sample_cv contact_entities
                               (firstn 20 sample_cv)))
    by (vm_compute; reflexivity).
  eexists. split; [exact Hret|].
  destruct (@header_set_by_core mock_processor today sample_cv [] [] _ Hret)
    as [H _].
  exact (H Hfull).
Defined.

(** C8, as stated, on the sample text: the core returns the job title
    filled in. *)
Lemma header_not_left_empty :
  ~ core_leaves_header_empty mock_processor today sample_cv.
Proof.
  intros H.
  assert (Hret : result (extract_candidate_data mock_processor today sample_cv)
                 = Returned (full_profile today sample_cv contact_entities
                               (firstn 20 sample_cv)))
    by (vm_compute; reflexivity).
  destruct (H _ Hret) as [Hj _]. discriminate Hj.
Qed.

(** ** The clock *)

Lemma agree_bind {A B} (R : B -> B -> Prop) (m : M A) (f1 f2 : A -> M B) :
  (forall a, agree R (f1 a) (f2 a)) -> agree R (bind m f1) (bind m f2).
Proof.
  intros H. destruct m as [t [a|e]]; unfold agree, bind, trace, result.
  - specialize (H a). unfold agree, trace, result in H.
    destruct (f1 a) as [t1 o1], (f2 a) as [t2 o2]. cbn [fst snd] in *.
    destruct H as [-> H]. split; [reflexivity | exact H].
  - cbn [fst snd]. split; reflexivity.
Qed.

(** C9.  With the pipelines fixed (they are functions of their input),
    two calls of [extract_candidate_data] on the same text at different
    times make the same pipeline calls and end alike: both raise the same
    exception, or both return profiles equal in every field except
    [zusaetzliche_bemerkungen], which carries the date. *)
Theorem clock_only_in_remark
        (self : CVProcessor) (now1 now2 : datetime) (raw_text : str) :
  agree same_but_remark
        (extract_candidate_data self now1 raw_text)
        (extract_candidate_data self now2 raw_text).
Proof.
  destruct (blank raw_text) eqn:Hb.
  - rewrite !(@extract_candidate_data_blank self _ raw_text Hb).
    split; [reflexivity|]. unfold ret, result, same_but_remark.
    cbn [snd]. split_all.
  - rewrite !(@extract_candidate_data_full self _ raw_text Hb).
    apply agree_bind. intros ner. apply agree_bind. intros s.
    split; [reflexivity|].
    unfold ret, result, same_but_remark, full_profile.
    cbn [snd job_title einkaufskurzprofil stundenverrechnungssatz starttermin
         name email phone berufserfahrung ausbildung edv_kenntnisse
         sonstige_techniken sprachkenntnisse summary].
    split_all.
Qed.

(** The remark is where the date of the call shows. *)
Example remark_carries_the_date :
  option_map zusaetzliche_bemerkungen
    (match result (extract_candidate_data mock_processor today sample_cv) with
     | Returned p => Some p
     | Raised _ => None
     end)
  = Some (u "Profil automatisch generiert am 01.04.2025")
  /\ option_map zusaetzliche_bemerkungen
       (match result (extract_candidate_data mock_processor tomorrow
                                             sample_cv) with
        | Returned p => Some p
        | Raised _ => None
        end)
     = Some (u "Profil automatisch generiert am 02.04.2025").
Proof. split; vm_compute; reflexivity. Qed.

(** On blank input the defaulting step is what fills the header. *)
Example defaults_for_blank_input :
  option_map (fun q => (job_title q, einkaufskurzprofil q,
                        stundenverrechnungssatz q, starttermin q))
    (match result (generate_profile_from_text unloaded_processor today
                                              whitespace_only [] []) with
     | Returned q => Some q
     | Raised _ => None
     end)
  = Some (DEFAULT_JOB_TITLE, DEFAULT_EKP, DEFAULT_SVS, DEFAULT_START_DATE).
Proof. vm_compute. reflexivity. Qed.

End AppFacts.
